(** * BlueLogger: a leveled, colorized logger

    A shallow embedding of the two iterations of the Go package [log] that
    the repository holds:

    - [src/log.go]            (module [Log]):     TRACE = 0 ... ERROR = 4;
    - [src/unnamed/part_000]  (module [Part000]): LevelError = 0 ... LevelTrace = 4.

    Go's [int] and [Level] values are integers of [Z]; byte slices and
    strings are lists of [ascii]; the scratch array of [itoa] is a list
    updated by index, with the bounds check Go performs written out. *)

From Stdlib Require Import ZArith List Ascii String Bool Lia.
From stdpp Require Import base list.
Import ListNotations.

Local Open Scope Z_scope.
Local Open Scope list_scope.

(** ** Bytes and strings *)

Abbreviation bytes := (list ascii) (only parsing).

(** A Go string literal. *)
Definition lit (s : string) : bytes := list_ascii_of_string s.

(** Go's conversion [byte(x)] of an integer: the low eight bits. *)
Definition byte_of_int (x : Z) : ascii := ascii_of_N (Z.to_N (x mod 256)).

(** The escape byte that starts every ANSI control sequence. *)
Definition ESC : ascii := "027"%char.

Definition no_escape (s : bytes) : Prop := Forall (fun c => c <> ESC) s.

(** ** Run-time panics

    Indexing out of range panics in Go; [Panic] is that outcome. *)

Inductive result (A : Type) : Type :=
| Ok (a : A)
| Panic.

Arguments Ok {A} a.
Arguments Panic {A}.

Definition bind {A B : Type} (m : result A) (k : A -> result B) : result B :=
  match m with
  | Ok a => k a
  | Panic => Panic
  end.

Notation "'let*' x ':=' m 'in' k" := (bind m (fun x => k))
  (at level 10, x name, m at level 100, k at level 200).

(** ** Package acolor *)

Module acolor.

Inductive Attribute : Type :=
| Bold | Red | Green | Yellow | Cyan | White | BlackHi.

(** Modelled from the spec: the package github.com/VolkovRA/GoAColor is not
    part of the sources. The spec describes its results as ANSI SGR escape
    sequences, [ESC[ ... m], and its reset as [ESC[0m]; the attributes carry
    their standard SGR numbers. *)
Definition code (a : Attribute) : bytes :=
  match a with
  | Bold => lit "1"
  | Red => lit "31"
  | Green => lit "32"
  | Yellow => lit "33"
  | Cyan => lit "36"
  | White => lit "37"
  | BlackHi => lit "90"
  end.

Fixpoint join (l : list Attribute) : bytes :=
  match l with
  | [] => []
  | [a] => code a
  | a :: rest => code a ++ lit ";" ++ join rest
  end.

Definition Apply (l : list Attribute) : bytes :=
  ESC :: lit "[" ++ join l ++ lit "m".

Definition Clear : bytes := ESC :: lit "[0m".

End acolor.

(** ** The helper [itoa] *)

(** [b[bp] = x]: [None] when [bp] is out of range. *)
Definition store (b : bytes) (bp : Z) (x : ascii) : option bytes :=
  if (0 <=? bp) && (bp <? Z.of_nat (length b))
  then Some (<[Z.to_nat bp := x]> b)
  else None.

(** The loop of [itoa] together with the store that follows it. Every
    iteration stores at [bp] and then decrements [bp], so the loop runs at
    most [length b] times before a store fails; [None] is returned when
    [fuel] iterations were not enough. Go's [/] truncates towards zero
    ([Z.quot]); the sum ['0' + i - q*10] is taken modulo 256 by the
    conversion to [byte], which also absorbs any wrap-around of [int]. *)
Fixpoint itoa_loop (fuel : nat) (b : bytes) (bp i wid : Z)
  : option (result (bytes * Z)) :=
  match fuel with
  | O => None
  | S fuel' =>
      if (10 <=? i) || (1 <? wid) then
        let wid := wid - 1 in
        let q := Z.quot i 10 in
        match store b bp (byte_of_int (48 + i - q * 10)) with
        | None => Some Panic
        | Some b => itoa_loop fuel' b (bp - 1) q wid
        end
      else
        match store b bp (byte_of_int (48 + i)) with
        | None => Some Panic
        | Some b => Some (Ok (b, bp))
        end
  end.

(** [var b [20]byte] *)
Definition scratch : bytes := repeat "000"%char 20.

(** [itoa(buf, i, wid)]: the new contents of [*buf]. Twenty-one rounds of
    fuel always suffice for the twenty-byte array ([itoa_loop_fuel]), so the
    last branch is never taken. *)
Definition itoa (buf : bytes) (i wid : Z) : result bytes :=
  match itoa_loop 21 scratch 19 i wid with
  | Some (Ok (b, bp)) => Ok (buf ++ drop (Z.to_nat bp) b)
  | Some Panic => Panic
  | None => Panic
  end.

(** ** Zero-padded decimal numerals (specification side) *)

Definition digit (d : Z) : ascii := byte_of_int (48 + d).

Fixpoint dec_digits_fuel (fuel : nat) (n : Z) : bytes :=
  match fuel with
  | O => []
  | S fuel' =>
      if n <? 10 then [digit n]
      else dec_digits_fuel fuel' (n / 10) ++ [digit (n mod 10)]
  end.

(** The decimal numeral of [n >= 0], most significant digit first, without
    leading zeros. *)
Definition dec_digits (n : Z) : bytes :=
  dec_digits_fuel (S (Z.to_nat (Z.log2 n))) n.

(** The numeral of [n] padded on the left with zeros to at least [w]
    characters. *)
Definition zpad (w : Z) (n : Z) : bytes :=
  let ds := dec_digits n in
  repeat "0"%char (Z.to_nat w - length ds) ++ ds.

(** The number a string of decimal digits denotes. *)
Definition dec_value (s : bytes) : Z :=
  fold_left (fun acc c => acc * 10 + (Z.of_N (N_of_ascii c) - 48)) s 0.

Definition is_digit (c : ascii) : Prop :=
  48 <= Z.of_N (N_of_ascii c) <= 57.

(** ** Package time

    Only what the logger reads: the calendar fields of an instant, in the
    local zone and in UTC. *)

Record Civil : Type := {
  year : Z; month : Z; day : Z;
  hour : Z; minute : Z; second : Z;
  nanosecond : Z
}.

(** A [time.Time]: [wall] holds the fields in the value's own location,
    [zulu] the fields of the same instant in UTC. *)
Record Time : Type := { wall : Civil; zulu : Civil }.

(** [t.UTC()] *)
Definition Time_UTC (t : Time) : Time := {| wall := zulu t; zulu := zulu t |}.

(** [t.Date()], [t.Clock()], [t.Nanosecond()] *)
Definition Date (t : Time) : Z * Z * Z :=
  (year (wall t), month (wall t), day (wall t)).
Definition Clock (t : Time) : Z * Z * Z :=
  (hour (wall t), minute (wall t), second (wall t)).
Definition Nanosecond (t : Time) : Z := nanosecond (wall t).

(** The ranges package time documents for these fields; the year is a
    non-negative Go [int]. *)
Definition civil_ok (c : Civil) : Prop :=
  0 <= year c < 2 ^ 63 /\ 1 <= month c <= 12 /\ 1 <= day c <= 31 /\
  0 <= hour c <= 23 /\ 0 <= minute c <= 59 /\ 0 <= second c <= 59 /\
  0 <= nanosecond c <= 999999999.

Definition time_ok (t : Time) : Prop := civil_ok (wall t) /\ civil_ok (zulu t).

(** ** Interfaces: [io.Writer] and package fmt *)

(** A Go [error]; [None] is [nil]. *)
Definition error : Type := option bytes.

(** [Write(p) (n, err)] on a sink in state [w]. *)
Class Writer (W : Type) : Type :=
  Write : W -> bytes -> W * (Z * error).

(** Package fmt over some type of operands ([interface{}]). The one law is
    that printing a single string operand gives that string. *)
Class Fmt : Type := {
  value : Type;
  Sprint : list value -> bytes;
  Sprintf : bytes -> list value -> bytes;
  VString : bytes -> value;
  Sprint_VString : forall s, Sprint [VString s] = s
}.

(** ** The logger *)

Record Logger (W : Type) : Type := {
  Color : bool;
  UTC : bool;
  Head : bool;
  HeadLevel : bool;
  HeadDate : bool;
  HeadTime : bool;
  HeadMC : bool;
  out : W;
  level : Z;
  buf : bytes
}.

Arguments Color {W} _.
Arguments UTC {W} _.
Arguments Head {W} _.
Arguments HeadLevel {W} _.
Arguments HeadDate {W} _.
Arguments HeadTime {W} _.
Arguments HeadMC {W} _.
Arguments out {W} _.
Arguments level {W} _.
Arguments buf {W} _.

Definition set_out {W} (l : Logger W) (w : W) : Logger W :=
  {| Color := Color l; UTC := UTC l; Head := Head l; HeadLevel := HeadLevel l;
     HeadDate := HeadDate l; HeadTime := HeadTime l; HeadMC := HeadMC l;
     out := w; level := level l; buf := buf l |}.

Definition set_level {W} (l : Logger W) (v : Z) : Logger W :=
  {| Color := Color l; UTC := UTC l; Head := Head l; HeadLevel := HeadLevel l;
     HeadDate := HeadDate l; HeadTime := HeadTime l; HeadMC := HeadMC l;
     out := out l; level := v; buf := buf l |}.

Definition set_buf {W} (l : Logger W) (b : bytes) : Logger W :=
  {| Color := Color l; UTC := UTC l; Head := Head l; HeadLevel := HeadLevel l;
     HeadDate := HeadDate l; HeadTime := HeadTime l; HeadMC := HeadMC l;
     out := out l; level := level l; buf := b |}.

(** The exported fields, which callers assign directly. *)
Inductive flag : Type :=
| FColor | FUTC | FHead | FHeadLevel | FHeadDate | FHeadTime | FHeadMC.

Definition set_flag {W} (l : Logger W) (f : flag) (b : bool) : Logger W :=
  {| Color := if f is FColor then b else Color l;
     UTC := if f is FUTC then b else UTC l;
     Head := if f is FHead then b else Head l;
     HeadLevel := if f is FHeadLevel then b else HeadLevel l;
     HeadDate := if f is FHeadDate then b else HeadDate l;
     HeadTime := if f is FHeadTime then b else HeadTime l;
     HeadMC := if f is FHeadMC then b else HeadMC l;
     out := out l; level := level l; buf := buf l |}.

(** [New(out, level)] *)
Definition New {W} (o : W) (lv : Z) : Logger W :=
  {| Color := true; UTC := true; Head := true; HeadLevel := true;
     HeadDate := true; HeadTime := true; HeadMC := false;
     out := o; level := lv; buf := [] |}.

(** What a call does to the outside world, in order: a call into package
    fmt to render the message, a [Write] on the sink, [os.Exit]. *)
Inductive event : Type :=
| EvFormat
| EvWrite (p : bytes)
| EvExit (code : Z).

(** How a call ends: it returns to the caller, or the process is gone. *)
Inductive status : Type :=
| Returned
| Exited (code : Z).

(** The four emit operations that are not fatal. *)
Inductive emit : Type := EmWarn | EmInfo | EmDebug | EmTrace.

(** The five severities, and the order the spec fixes on them:
    ERROR > WARN > INFO > DEBUG > TRACE. *)
Inductive Severity : Type :=
| SevError | SevWarn | SevInfo | SevDebug | SevTrace.

Definition more_severe (a b : Severity) : bool :=
  match a, b with
  | SevError, (SevWarn | SevInfo | SevDebug | SevTrace) => true
  | SevWarn, (SevInfo | SevDebug | SevTrace) => true
  | SevInfo, (SevDebug | SevTrace) => true
  | SevDebug, SevTrace => true
  | _, _ => false
  end.

Definition same_severity (a b : Severity) : bool :=
  match a, b with
  | SevError, SevError | SevWarn, SevWarn | SevInfo, SevInfo
  | SevDebug, SevDebug | SevTrace, SevTrace => true
  | _, _ => false
  end.

Definition at_least_as_severe (a b : Severity) : bool :=
  more_severe a b || same_severity a b.

(** ** The header and the write path (the same text in both files) *)

Section WritePath.

Context {W : Type} `{Writer W} `{Fmt}.

(** The constant the file calls [ERROR] or [LevelError], and its
    [getHeaderLevel]. *)
Variable ERROR : Z.
Variable getHeaderLevel : Logger W -> Z -> bytes.

(** The first part of [writeHeader], up to the comment that opens its last
    part: the level tag, the header colour, the date and the time. *)
Definition headerParts (l : Logger W) (buf : bytes) (level : Z) (now : Time)
  : result bytes :=
  let buf := if HeadLevel l then buf ++ getHeaderLevel l level else buf in
  let buf :=
    if Color l then
      if level =? ERROR then buf ++ acolor.Apply [acolor.Red]
      else buf ++ acolor.Apply [acolor.BlackHi]
    else buf in
  if HeadDate l || HeadTime l then
    let now := if UTC l then Time_UTC now else now in
    let* buf :=
      (if HeadDate l then
         let '(year, month, day) := Date now in
         let* buf := itoa buf day 2 in
         let buf := buf ++ lit "." in
         let* buf := itoa buf month 2 in
         let buf := buf ++ lit "." in
         let* buf := itoa buf year 4 in
         Ok (buf ++ lit " ")
       else Ok buf) in
    if HeadTime l then
      let '(hour, min, sec) := Clock now in
      let* buf := itoa buf hour 2 in
      let buf := buf ++ lit ":" in
      let* buf := itoa buf min 2 in
      let buf := buf ++ lit ":" in
      let* buf := itoa buf sec 2 in
      let* buf :=
        (if HeadMC l then
           let buf := buf ++ lit "." in
           itoa buf (Z.quot (Nanosecond now) 1000) 6
         else Ok buf) in
      Ok (buf ++ lit " ")
    else Ok buf
  else Ok buf.

(** [writeHeader(buf, level)]: the new contents of [*buf]. *)
Definition writeHeader (l : Logger W) (buf : bytes) (level : Z) (now : Time)
  : result bytes :=
  let* buf := headerParts l buf level now in
  let length := Z.of_nat (length buf) in
  if length =? 0 then Ok buf
  else
    let buf := take (Z.to_nat (length - 1)) buf in
    if Color l then Ok (buf ++ (lit ": " ++ acolor.Clear))
    else Ok (buf ++ lit ": ").

Definition newline : bytes := ["010"%char].

(** [write(level, v...)]: the logger after the call, what the call did, and
    the error of the sink. [l.buf[:0]] is [take 0]. *)
Definition write (l : Logger W) (level : Z) (v : list value) (now : Time)
  : result (Logger W * list event * error) :=
  let buf := take 0 (buf l) in
  let* buf := (if Head l then writeHeader l buf level now else Ok buf) in
  let buf :=
    if Color l && (level =? ERROR)
    then buf ++ (acolor.Apply [acolor.Red] ++ Sprint v ++ acolor.Clear ++ newline)
    else buf ++ (Sprint v ++ newline) in
  let '(w, (_, err)) := Write (out l) buf in
  Ok (set_buf (set_out l w) buf, [EvFormat; EvWrite buf], err).

End WritePath.

(** What the level-specific methods do with the result of the write: the
    error is dropped. *)
Definition returned {W} (r : Logger W * list event * error)
  : Logger W * list event * status :=
  let '(l, evs, _) := r in (l, evs, Returned).

(** [os.Exit(code)] after the write. *)
Definition exited {W} (code : Z) (r : Logger W * list event * error)
  : Logger W * list event * status :=
  let '(l, evs, _) := r in (l, evs ++ [EvExit code], Exited code).

(** A call that only reads or assigns fields. *)
Definition quiet {W} (l : Logger W) : result (Logger W * list event * status) :=
  Ok (l, [], Returned).

(** ** [src/log.go] *)

Module Log.

Definition TRACE : Z := 0.
Definition DEBUG : Z := 1.
Definition INFO : Z := 2.
Definition WARN : Z := 3.
Definition ERROR : Z := 4.

Definition code (s : Severity) : Z :=
  match s with
  | SevError => ERROR
  | SevWarn => WARN
  | SevInfo => INFO
  | SevDebug => DEBUG
  | SevTrace => TRACE
  end.

(** The values of [Level] that are one of the five constants. *)
Definition valid (v : Z) : Prop := TRACE <= v <= ERROR.

Section Methods.

Context {W : Type} `{Writer W} `{Fmt}.

Definition getHeaderLevel (l : Logger W) (level : Z) : bytes :=
  if Color l then
    if level =? INFO then
      acolor.Apply [acolor.Bold; acolor.Green] ++ lit "[INFO]  " ++ acolor.Clear
    else if level =? WARN then
      acolor.Apply [acolor.Bold; acolor.Yellow] ++ lit "[WARN]  " ++ acolor.Clear
    else if level =? TRACE then
      acolor.Apply [acolor.Bold; acolor.White] ++ lit "[TRACE] " ++ acolor.Clear
    else if level =? DEBUG then
      acolor.Apply [acolor.Bold; acolor.Cyan] ++ lit "[DEBUG] " ++ acolor.Clear
    else
      acolor.Apply [acolor.Bold; acolor.Red] ++ lit "[ERROR] " ++ acolor.Clear
  else
    if level =? INFO then lit "[INFO]  "
    else if level =? WARN then lit "[WARN]  "
    else if level =? TRACE then lit "[TRACE] "
    else if level =? DEBUG then lit "[DEBUG] "
    else lit "[ERROR] ".

Definition headerParts := headerParts ERROR getHeaderLevel.
Definition writeHeader := writeHeader ERROR getHeaderLevel.
Definition write := write ERROR getHeaderLevel.

Definition Level (l : Logger W) : Z := level l.

Definition SetLevel (l : Logger W) (level : Z) : Logger W :=
  set_level l level.

Definition Output (l : Logger W) : W := out l.

Definition SetOutput (l : Logger W) (w : W) : Logger W := set_out l w.

Definition IsLevel (l : Logger W) (lv : Z) : bool := lv >=? level l.

Definition Error (l : Logger W) (v : list value) (now : Time)
  : result (Logger W * list event * status) :=
  if ERROR <? level l then quiet l
  else let* r := write l ERROR v now in Ok (exited 1 r).

Definition Warn (l : Logger W) (v : list value) (now : Time)
  : result (Logger W * list event * status) :=
  if WARN <? level l then quiet l
  else let* r := write l WARN v now in Ok (returned r).

Definition Info (l : Logger W) (v : list value) (now : Time)
  : result (Logger W * list event * status) :=
  if INFO <? level l then quiet l
  else let* r := write l INFO v now in Ok (returned r).

Definition Debug (l : Logger W) (v : list value) (now : Time)
  : result (Logger W * list event * status) :=
  if DEBUG <? level l then quiet l
  else let* r := write l DEBUG v now in Ok (returned r).

Definition Trace (l : Logger W) (v : list value) (now : Time)
  : result (Logger W * list event * status) :=
  if TRACE <? level l then quiet l
  else let* r := write l TRACE v now in Ok (returned r).

Definition emit_level (e : emit) : Z :=
  match e with
  | EmWarn => WARN
  | EmInfo => INFO
  | EmDebug => DEBUG
  | EmTrace => TRACE
  end.

Definition run_emit (e : emit) : Logger W -> list value -> Time ->
                                 result (Logger W * list event * status) :=
  match e with
  | EmWarn => Warn
  | EmInfo => Info
  | EmDebug => Debug
  | EmTrace => Trace
  end.

(** Every way the package lets a caller act on a logger. *)
Inductive call : Type :=
| CLevel
| CSetLevel (v : Z)
| COutput
| CSetOutput (w : W)
| CAssign (f : flag) (b : bool)
| CIsLevel (lv : Z)
| CError (v : list value)
| CEmit (e : emit) (v : list value)
| CWrite (lv : Z) (v : list value).

Definition exec (l : Logger W) (c : call) (now : Time)
  : result (Logger W * list event * status) :=
  match c with
  | CLevel | COutput | CIsLevel _ => quiet l
  | CSetLevel v => quiet (SetLevel l v)
  | CSetOutput w => quiet (SetOutput l w)
  | CAssign f b => quiet (set_flag l f b)
  | CError v => Error l v now
  | CEmit e v => run_emit e l v now
  | CWrite lv v => let* r := write l lv v now in Ok (returned r)
  end.

(** [IsError()] ... [IsTrace()] *)
Definition IsError (l : Logger W) : bool := IsLevel l ERROR.
Definition IsWarn (l : Logger W) : bool := IsLevel l WARN.
Definition IsInfo (l : Logger W) : bool := IsLevel l INFO.
Definition IsDebug (l : Logger W) : bool := IsLevel l DEBUG.
Definition IsTrace (l : Logger W) : bool := IsLevel l TRACE.

(** [var std = New(os.Stderr, DEBUG)], for the sink [os.Stderr] is. The
    functions of the package ([Warn], [IsLevel], ...) are the methods of this
    logger. *)
Definition std (Stderr : W) : Logger W := New Stderr DEBUG.

End Methods.

End Log.

(** ** [src/unnamed/part_000] *)

Module Part000.

Definition LevelError : Z := 0.
Definition LevelWarn : Z := 1.
Definition LevelInfo : Z := 2.
Definition LevelDebug : Z := 3.
Definition LevelTrace : Z := 4.

Definition code (s : Severity) : Z :=
  match s with
  | SevError => LevelError
  | SevWarn => LevelWarn
  | SevInfo => LevelInfo
  | SevDebug => LevelDebug
  | SevTrace => LevelTrace
  end.

(** The values of [LogLevel] that are one of the five constants. *)
Definition valid (v : Z) : Prop := LevelError <= v <= LevelTrace.

Section Methods.

Context {W : Type} `{Writer W} `{Fmt}.

Definition getHeaderLevel (l : Logger W) (level : Z) : bytes :=
  if Color l then
    if level =? LevelInfo then
      acolor.Apply [acolor.Bold; acolor.Green] ++ lit "[INFO]  " ++ acolor.Clear
    else if level =? LevelWarn then
      acolor.Apply [acolor.Bold; acolor.Yellow] ++ lit "[WARN]  " ++ acolor.Clear
    else if level =? LevelTrace then
      acolor.Apply [acolor.Bold; acolor.White] ++ lit "[TRACE] " ++ acolor.Clear
    else if level =? LevelDebug then
      acolor.Apply [acolor.Bold; acolor.Cyan] ++ lit "[DEBUG] " ++ acolor.Clear
    else if level =? LevelError then
      acolor.Apply [acolor.Bold; acolor.Red] ++ lit "[ERROR] " ++ acolor.Clear
    else
      acolor.Apply [acolor.Bold; acolor.White] ++ lit "[]      " ++ acolor.Clear
  else
    if level =? LevelInfo then lit "[INFO]  "
    else if level =? LevelWarn then lit "[WARN]  "
    else if level =? LevelTrace then lit "[TRACE] "
    else if level =? LevelDebug then lit "[DEBUG] "
    else if level =? LevelError then lit "[ERROR] "
    else lit "[]      ".

Definition headerParts := headerParts LevelError getHeaderLevel.
Definition writeHeader := writeHeader LevelError getHeaderLevel.
Definition write := write LevelError getHeaderLevel.

(** [writef(level, format, v...)] *)
Definition writef (l : Logger W) (level : Z) (format : bytes)
           (v : list value) (now : Time)
  : result (Logger W * list event * error) :=
  let buf := take 0 (buf l) in
  let* buf := (if Head l then writeHeader l buf level now else Ok buf) in
  let buf :=
    if Color l && (level =? LevelError)
    then buf ++ (acolor.Apply [acolor.Red] ++ Sprintf format v
                   ++ acolor.Clear ++ newline)
    else buf ++ (Sprintf format v ++ newline) in
  let '(w, (_, err)) := Write (out l) buf in
  Ok (set_buf (set_out l w) buf, [EvFormat; EvWrite buf], err).

Definition Level (l : Logger W) : Z := level l.

Definition SetLevel (l : Logger W) (level : Z) : Logger W :=
  if level <? LevelError then set_level l LevelError
  else if level >? LevelTrace then set_level l LevelTrace
  else set_level l level.

Definition Output (l : Logger W) : W := out l.

Definition SetOutput (l : Logger W) (w : W) : Logger W := set_out l w.

Definition IsLevel (l : Logger W) (lv : Z) : bool := level l >=? lv.

Definition Error (l : Logger W) (v : list value) (now : Time)
  : result (Logger W * list event * status) :=
  let* r := write l LevelError v now in Ok (exited 1 r).

Definition Warn (l : Logger W) (v : list value) (now : Time)
  : result (Logger W * list event * status) :=
  if level l <? LevelWarn then quiet l
  else let* r := write l LevelWarn v now in Ok (returned r).

Definition Info (l : Logger W) (v : list value) (now : Time)
  : result (Logger W * list event * status) :=
  if level l <? LevelInfo then quiet l
  else let* r := write l LevelInfo v now in Ok (returned r).

Definition Debug (l : Logger W) (v : list value) (now : Time)
  : result (Logger W * list event * status) :=
  if level l <? LevelDebug then quiet l
  else let* r := write l LevelDebug v now in Ok (returned r).

Definition Trace (l : Logger W) (v : list value) (now : Time)
  : result (Logger W * list event * status) :=
  if level l <? LevelTrace then quiet l
  else let* r := write l LevelTrace v now in Ok (returned r).

Definition Errorf (l : Logger W) (format : bytes) (v : list value)
           (now : Time) : result (Logger W * list event * status) :=
  let* r := writef l LevelError format v now in Ok (exited 1 r).

Definition Warnf (l : Logger W) (format : bytes) (v : list value)
           (now : Time) : result (Logger W * list event * status) :=
  if level l <? LevelWarn then quiet l
  else let* r := writef l LevelWarn format v now in Ok (returned r).

Definition Infof (l : Logger W) (format : bytes) (v : list value)
           (now : Time) : result (Logger W * list event * status) :=
  if level l <? LevelInfo then quiet l
  else let* r := writef l LevelInfo format v now in Ok (returned r).

Definition Debugf (l : Logger W) (format : bytes) (v : list value)
           (now : Time) : result (Logger W * list event * status) :=
  if level l <? LevelDebug then quiet l
  else let* r := writef l LevelDebug format v now in Ok (returned r).

Definition Tracef (l : Logger W) (format : bytes) (v : list value)
           (now : Time) : result (Logger W * list event * status) :=
  if level l <? LevelTrace then quiet l
  else let* r := writef l LevelTrace format v now in Ok (returned r).

Definition emit_level (e : emit) : Z :=
  match e with
  | EmWarn => LevelWarn
  | EmInfo => LevelInfo
  | EmDebug => LevelDebug
  | EmTrace => LevelTrace
  end.

Definition run_emit (e : emit) : Logger W -> list value -> Time ->
                                 result (Logger W * list event * status) :=
  match e with
  | EmWarn => Warn
  | EmInfo => Info
  | EmDebug => Debug
  | EmTrace => Trace
  end.

Definition run_emitf (e : emit) : Logger W -> bytes -> list value -> Time ->
                                  result (Logger W * list event * status) :=
  match e with
  | EmWarn => Warnf
  | EmInfo => Infof
  | EmDebug => Debugf
  | EmTrace => Tracef
  end.

(** Every way the package lets a caller act on a logger. *)
Inductive call : Type :=
| CLevel
| CSetLevel (v : Z)
| COutput
| CSetOutput (w : W)
| CAssign (f : flag) (b : bool)
| CIsLevel (lv : Z)
| CError (v : list value)
| CErrorf (format : bytes) (v : list value)
| CEmit (e : emit) (v : list value)
| CEmitf (e : emit) (format : bytes) (v : list value)
| CWrite (lv : Z) (v : list value)
| CWritef (lv : Z) (format : bytes) (v : list value).

Definition exec (l : Logger W) (c : call) (now : Time)
  : result (Logger W * list event * status) :=
  match c with
  | CLevel | COutput | CIsLevel _ => quiet l
  | CSetLevel v => quiet (SetLevel l v)
  | CSetOutput w => quiet (SetOutput l w)
  | CAssign f b => quiet (set_flag l f b)
  | CError v => Error l v now
  | CErrorf format v => Errorf l format v now
  | CEmit e v => run_emit e l v now
  | CEmitf e format v => run_emitf e l format v now
  | CWrite lv v => let* r := write l lv v now in Ok (returned r)
  | CWritef lv format v => let* r := writef l lv format v now in Ok (returned r)
  end.

(** [IsError()] ... [IsTrace()] *)
Definition IsError (l : Logger W) : bool := IsLevel l LevelError.
Definition IsWarn (l : Logger W) : bool := IsLevel l LevelWarn.
Definition IsInfo (l : Logger W) : bool := IsLevel l LevelInfo.
Definition IsDebug (l : Logger W) : bool := IsLevel l LevelDebug.
Definition IsTrace (l : Logger W) : bool := IsLevel l LevelTrace.

(** [var std = New(os.Stderr, LevelTrace)], for the sink [os.Stderr] is. The
    functions of the package are the methods of this logger. *)
Definition std (Stderr : W) : Logger W := New Stderr LevelTrace.

End Methods.

End Part000.

(** ** Sample instances: a recording sink and a small fmt *)

(** A sink that keeps every block it was given, newest first, and fails
    every write when [broken] is set. *)
Record Recorder : Type := { blocks : list bytes; broken : bool }.

#[export] Instance Recorder_Writer : Writer Recorder :=
  fun w p =>
    if broken w
    then ({| blocks := p :: blocks w; broken := true |}, (0, Some (lit "broken pipe")))
    else ({| blocks := p :: blocks w; broken := false |}, (Z.of_nat (length p), None)).

(** Operands that are strings only. [Sprint] concatenates them (Go puts no
    space between string operands); [Sprintf] here knows the verbs [%s],
    [%v] and [%%]. *)
Fixpoint sprintf_strings (format : bytes) (v : list bytes) : bytes :=
  match format with
  | "%"%char :: "%"%char :: rest => "%"%char :: sprintf_strings rest v
  | "%"%char :: (("s" | "v")%char as verb) :: rest =>
      match v with
      | [] => lit "%!" ++ [verb] ++ lit "(MISSING)" ++ sprintf_strings rest []
      | a :: v' => a ++ sprintf_strings rest v'
      end
  | c :: rest => c :: sprintf_strings rest v
  | [] => []
  end.

#[export] Instance Strings_Fmt : Fmt := {|
  value := bytes;
  Sprint := @concat ascii;
  Sprintf := sprintf_strings;
  VString := fun s => s;
  Sprint_VString := fun s => app_nil_r s
|}.

(** ** Statements of the specification *)

(** The instant's fields the header shows: UTC or local. *)
Definition shown {W} (l : Logger W) (now : Time) : Civil :=
  if UTC l then zulu now else wall now.

(** [DD.MM.YYYY] *)
Definition calendar_text (c : Civil) : bytes :=
  zpad 2 (day c) ++ lit "." ++ zpad 2 (month c) ++ lit "." ++ zpad 4 (year c).

(** The date and a space. *)
Definition date_text (c : Civil) : bytes :=
  calendar_text c ++ lit " ".

(** [HH:MM:SS], and [.NNNNNN] when [mc] is set. *)
Definition clock_text (mc : bool) (c : Civil) : bytes :=
  zpad 2 (hour c) ++ lit ":" ++ zpad 2 (minute c) ++ lit ":" ++ zpad 2 (second c)
    ++ (if mc then lit "." ++ zpad 6 (nanosecond c / 1000) else []).

(** The time and a space. *)
Definition time_text (mc : bool) (c : Civil) : bytes :=
  clock_text mc c ++ lit " ".

(** The colour that opens the header text: red for the error level. *)
Definition head_colour (ERROR level : Z) : bytes :=
  if level =? ERROR then acolor.Apply [acolor.Red]
  else acolor.Apply [acolor.BlackHi].

(** Step 4 of the header contract: nothing written gives an empty header;
    otherwise the trailing space of what was written becomes a colon and a
    space, followed by the reset when colour is on. *)
Definition header_closed (color : bool) (written header : bytes) : Prop :=
  (written = [] -> header = []) /\
  (written <> [] ->
   exists p, written = p ++ lit " " /\
             header = p ++ lit ": " ++ (if color then acolor.Clear else [])).

(** The colours of a level: of its tag, and of its header text (which is
    also the colour of an error's message). *)
Definition tag_colour (s : Severity) : acolor.Attribute :=
  match s with
  | SevError => acolor.Red
  | SevWarn => acolor.Yellow
  | SevInfo => acolor.Green
  | SevDebug => acolor.Cyan
  | SevTrace => acolor.White
  end.

Definition text_colour (s : Severity) : acolor.Attribute :=
  match s with
  | SevError => acolor.Red
  | _ => acolor.BlackHi
  end.

Definition escapes (s : Severity) : list bytes :=
  [acolor.Apply [acolor.Bold; tag_colour s]; acolor.Apply [text_colour s]].

(** A line in which every escape byte belongs to a colourised run: one of
    the escape sequences [escs], text without escape bytes, the reset. *)
Inductive Bracketed (escs : list bytes) : bytes -> Prop :=
| Br_nil : Bracketed escs []
| Br_plain (c : ascii) (s : bytes) :
    c <> ESC -> Bracketed escs s -> Bracketed escs (c :: s)
| Br_run (e t s : bytes) :
    In e escs -> no_escape t -> Bracketed escs s ->
    Bracketed escs (e ++ t ++ acolor.Clear ++ s).

(** A fatal call: the message is rendered, the line is handed to the sink,
    and the process exits with [code]; the call does not return. *)
Definition fatal {W} `{Writer W} (code : Z) (l : Logger W)
           (r : result (Logger W * list event * status)) : Prop :=
  exists l' line,
    r = Ok (l', [EvFormat; EvWrite line; EvExit code], Exited code) /\
    out l' = fst (Write (out l) line).

(** What the first part of [writeHeader] appends, for a level tag [tag]. *)
Definition header_text {W} (ERROR : Z) (tag : bytes) (l : Logger W)
           (level : Z) (now : Time) : bytes :=
  (if HeadLevel l then tag else [])
    ++ (if Color l then head_colour ERROR level else [])
    ++ (if HeadDate l then date_text (shown l now) else [])
    ++ (if HeadTime l then time_text (HeadMC l) (shown l now) else []).

(** What the last part of [writeHeader] makes of it. *)
Definition header_end (color : bool) (written : bytes) : bytes :=
  match written with
  | [] => []
  | _ => removelast written ++ lit ": " ++ (if color then acolor.Clear else [])
  end.

(** The line [write] hands to the sink for the rendered message [msg]. *)
Definition line_text {W} (ERROR : Z) (tag : bytes) (l : Logger W)
           (level : Z) (msg : bytes) (now : Time) : bytes :=
  (if Head l
   then header_end (Color l) (header_text ERROR tag l level now)
   else [])
    ++ (if Color l && (level =? ERROR)
        then acolor.Apply [acolor.Red] ++ msg ++ acolor.Clear ++ newline
        else msg ++ newline).

(** ** Sample values *)

(** 2024-03-05T07:08:09Z *)
Definition march5 : Civil :=
  {| year := 2024; month := 3; day := 5;
     hour := 7; minute := 8; second := 9; nanosecond := 0 |}.

Definition instant : Time := {| wall := march5; zulu := march5 |}.

Definition stderr : Recorder := {| blocks := []; broken := false |}.

Definition broken_pipe : Recorder := {| blocks := []; broken := true |}.

(** Colour on, the header on, and none of its three parts. *)
Definition bare {W} (o : W) (lv : Z) : Logger W :=
  set_flag (set_flag (set_flag (New o lv) FHeadLevel false) FHeadDate false)
           FHeadTime false.

(** An instant long before the common era, as a clock set wrong could
    give it. *)
Definition ancient : Time :=
  {| wall := {| year := -21000; month := 1; day := 1;
                hour := 0; minute := 0; second := 0; nanosecond := 0 |};
     zulu := {| year := -21000; month := 1; day := 1;
                hour := 0; minute := 0; second := 0; nanosecond := 0 |} |}.

(** ** Further statements *)

(** A clock reading whose fields are Go [int]s, of either sign. *)
Definition civil_int (c : Civil) : Prop :=
  year c < 2 ^ 63 /\ month c < 2 ^ 63 /\ day c < 2 ^ 63 /\
  hour c < 2 ^ 63 /\ minute c < 2 ^ 63 /\ second c < 2 ^ 63 /\
  nanosecond c < 2 ^ 63.

(** The text of a level's tag, eight bytes wide. *)
Definition tag_text (s : Severity) : bytes :=
  match s with
  | SevError => lit "[ERROR] "
  | SevWarn => lit "[WARN]  "
  | SevInfo => lit "[INFO]  "
  | SevDebug => lit "[DEBUG] "
  | SevTrace => lit "[TRACE] "
  end.

(** The line of a logger nobody has reconfigured: coloured tag, grey (or
    red) date and time in UTC, the message (red for an error), newline. *)
Definition default_line (s : Severity) (now : Time) (msg : bytes) : bytes :=
  acolor.Apply [acolor.Bold; tag_colour s] ++ tag_text s ++ acolor.Clear
    ++ acolor.Apply [text_colour s]
    ++ calendar_text (zulu now) ++ lit " " ++ clock_text false (zulu now)
    ++ lit ": " ++ acolor.Clear
    ++ (if same_severity s SevError
        then acolor.Apply [acolor.Red] ++ msg ++ acolor.Clear
        else msg)
    ++ newline.

(** The bytes of [s] are all different from [c]. *)
Definition avoids (c : ascii) (s : bytes) : Prop := Forall (fun x => x <> c) s.

(** The width of the header when colour is off. *)
Definition plain_header_width {W} (l : Logger W) : nat :=
  let parts :=
    ((if HeadLevel l then 8 else 0)
     + (if HeadDate l then 11 else 0)
     + (if HeadTime l then (if HeadMC l then 16 else 9) else 0))%nat in
  match parts with
  | O => O
  | S _ => S parts
  end.

(** * Properties *)

(** ** Digits *)

Lemma digit_code (d : Z) :
  0 <= d <= 9 -> Z.of_N (N_of_ascii (digit d)) = 48 + d.
Proof.
  intros Hd. unfold digit, byte_of_int.
  rewrite Z.mod_small by lia.
  rewrite N_ascii_embedding by lia. lia.
Qed.

Lemma digit_is_digit (d : Z) : 0 <= d <= 9 -> is_digit (digit d).
Proof. intros Hd. unfold is_digit. rewrite digit_code; lia. Qed.

Lemma is_digit_not_ESC (c : ascii) : is_digit c -> c <> ESC.
Proof.
  intros Hc ->. unfold is_digit in Hc.
  change (Z.of_N (N_of_ascii ESC)) with 27 in Hc. lia.
Qed.

Lemma log2_div10 (n : Z) : 10 <= n -> Z.log2 (n / 10) < Z.log2 n.
Proof.
  intros Hn.
  assert (Hq : 0 < n / 10) by (apply Z.div_str_pos; lia).
  apply Z.log2_lt_pow2; [done|].
  pose proof (Z.log2_spec n ltac:(lia)) as [_ Hhi].
  rewrite Z.pow_succ_r in Hhi by apply Z.log2_nonneg.
  pose proof (Z.mul_div_le n 10 ltac:(lia)). lia.
Qed.

Lemma dec_digits_fuel_enough (f1 f2 : nat) (n : Z) :
  0 <= n -> Z.log2 n < Z.of_nat f1 -> Z.log2 n < Z.of_nat f2 ->
  dec_digits_fuel f1 n = dec_digits_fuel f2 n.
Proof.
  revert f2 n. induction f1 as [|f1 IH]; intros f2 n Hn H1 H2.
  - pose proof (Z.log2_nonneg n). lia.
  - destruct f2 as [|f2]; [pose proof (Z.log2_nonneg n); lia|].
    simpl. destruct (n <? 10) eqn:Hlt; [done|].
    apply Z.ltb_ge in Hlt. f_equal.
    pose proof (log2_div10 n Hlt).
    apply IH; [apply Z.div_pos; lia | lia | lia].
Qed.

Lemma dec_digits_small (n : Z) : 0 <= n < 10 -> dec_digits n = [digit n].
Proof.
  intros Hn. unfold dec_digits. simpl.
  destruct (n <? 10) eqn:Hlt; [done|]. apply Z.ltb_ge in Hlt. lia.
Qed.

Lemma dec_digits_step (n : Z) :
  10 <= n -> dec_digits n = dec_digits (n / 10) ++ [digit (n mod 10)].
Proof.
  intros Hn. unfold dec_digits at 1. simpl.
  destruct (n <? 10) eqn:Hlt; [apply Z.ltb_lt in Hlt; lia|].
  f_equal. pose proof (log2_div10 n Hn).
  pose proof (Z.log2_nonneg (n / 10)). pose proof (Z.log2_nonneg n).
  apply dec_digits_fuel_enough; [apply Z.div_pos; lia | lia | lia].
Qed.

(** Induction on a non-negative number along its decimal numeral. *)
Lemma decimal_ind (P : Z -> Prop) :
  (forall n, 0 <= n < 10 -> P n) ->
  (forall n, 10 <= n -> P (n / 10) -> P n) ->
  forall n, 0 <= n -> P n.
Proof.
  intros Hsmall Hstep n Hn.
  induction n as [n IH] using (well_founded_induction (Z.lt_wf 0)).
  destruct (Z_lt_le_dec n 10) as [Hlt|Hge]; [apply Hsmall; lia|].
  apply Hstep; [done|]. 
  assert (0 <= n / 10 < n) by (split; [apply Z.div_pos|apply Z.div_lt]; lia).
  apply IH; lia.
Qed.

Lemma dec_digits_nonempty (n : Z) : (1 <= length (dec_digits n))%nat.
Proof. unfold dec_digits. simpl. destruct (n <? 10); [simpl; lia|]. rewrite length_app. simpl. lia. Qed.

Lemma dec_digits_all_digits (n : Z) : 0 <= n -> Forall is_digit (dec_digits n).
Proof.
  revert n. apply decimal_ind; intros n Hn.
  - rewrite dec_digits_small by done. apply Forall_singleton, digit_is_digit; lia.
  - intros IH. rewrite dec_digits_step by done. apply Forall_app. split; [done|].
    apply Forall_singleton, digit_is_digit.
    pose proof (Z.mod_pos_bound n 10). lia.
Qed.

Lemma dec_value_snoc (s : bytes) (c : ascii) :
  dec_value (s ++ [c]) = dec_value s * 10 + (Z.of_N (N_of_ascii c) - 48).
Proof. unfold dec_value. rewrite fold_left_app. reflexivity. Qed.

Lemma dec_value_dec_digits (n : Z) : 0 <= n -> dec_value (dec_digits n) = n.
Proof.
  revert n. apply decimal_ind; intros n Hn.
  - rewrite dec_digits_small by done. unfold dec_value. simpl.
    rewrite digit_code; lia.
  - intros IH. rewrite dec_digits_step by done.
    rewrite dec_value_snoc, IH.
    pose proof (Z.mod_pos_bound n 10). rewrite digit_code by lia.
    pose proof (Z.div_mod n 10). lia.
Qed.

Lemma dec_value_zeros (k : nat) (s : bytes) :
  dec_value (repeat "0"%char k ++ s) = dec_value s.
Proof.
  unfold dec_value. rewrite fold_left_app. f_equal.
  induction k as [|k IH]; [done|]. simpl. exact IH.
Qed.

(** The numeral of a positive number does not start with a zero. *)
Lemma dec_digits_head (n : Z) :
  1 <= n -> exists c s, dec_digits n = c :: s /\ c <> "0"%char.
Proof.
  intros Hn. assert (H0 : 0 <= n) by lia. revert n H0 Hn.
  apply (decimal_ind (fun n => 1 <= n -> exists c s, dec_digits n = c :: s /\ c <> "0"%char)).
  - intros n Hn H1. rewrite dec_digits_small by done.
    exists (digit n), []. split; [done|]. intros Heq.
    pose proof (digit_code n ltac:(lia)) as Hc. rewrite Heq in Hc.
    change (Z.of_N (N_of_ascii "0")) with 48 in Hc. lia.
  - intros n Hn IH _. rewrite dec_digits_step by done.
    destruct IH as (c & s & -> & Hc).
    { pose proof (Z.div_le_lower_bound n 10 1). lia. }
    exists c, (s ++ [digit (n mod 10)]). done.
Qed.

Lemma dec_digits_length_bound (k : nat) (n : Z) :
  0 <= n < 10 ^ Z.of_nat (S k) -> (length (dec_digits n) <= S k)%nat.
Proof.
  revert n. induction k as [|k IH]; intros n Hn.
  - rewrite dec_digits_small by (change (10 ^ Z.of_nat 1) with 10 in Hn; lia).
    simpl. lia.
  - destruct (Z_lt_le_dec n 10) as [Hlt|Hge].
    + rewrite dec_digits_small by lia. simpl. lia.
    + rewrite dec_digits_step by done. rewrite length_app. simpl.
      assert (0 <= n / 10 < 10 ^ Z.of_nat (S k)).
      { split; [apply Z.div_pos; lia|].
        apply Z.div_lt_upper_bound; [lia|].
        replace (Z.of_nat (S (S k))) with (Z.succ (Z.of_nat (S k))) in Hn by lia.
        rewrite Z.pow_succ_r in Hn by lia. lia. }
      specialize (IH _ H). lia.
Qed.

(** ** [zpad] *)

Lemma zpad_length (w n : Z) :
  length (zpad w n) = Nat.max (Z.to_nat w) (length (dec_digits n)).
Proof. unfold zpad. rewrite length_app, repeat_length. lia. Qed.

Lemma zpad_last (w n : Z) :
  0 <= n < 10 -> w <= 1 -> zpad w n = [digit n].
Proof.
  intros Hn Hw. unfold zpad. rewrite dec_digits_small by done.
  replace (Z.to_nat w - length [digit n])%nat with 0%nat by (simpl; lia).
  done.
Qed.

Lemma repeat_snoc {A} (x : A) (k : nat) : repeat x (S k) = repeat x k ++ [x].
Proof. induction k as [|k IH]; [done|]. simpl in *. by rewrite <- IH. Qed.

Lemma zpad_step (w n : Z) :
  0 <= n -> 10 <= n \/ 1 < w ->
  zpad w n = zpad (w - 1) (n / 10) ++ [digit (n mod 10)].
Proof.
  intros Hn Hc. unfold zpad.
  destruct (Z_lt_le_dec n 10) as [Hlt|Hge].
  - assert (Hw : 1 < w) by lia.
    rewrite Z.div_small, Z.mod_small by lia.
    rewrite !dec_digits_small by lia. simpl length.
    replace (Z.to_nat w - 1)%nat with (S (Z.to_nat (w - 1) - 1)) by lia.
    rewrite repeat_snoc, <- !app_assoc. reflexivity.
  - rewrite (dec_digits_step n) by done.
    rewrite length_app. simpl length. rewrite app_assoc. do 3 f_equal. lia.
Qed.

Lemma zpad_nonempty (w n : Z) : (1 <= length (zpad w n))%nat.
Proof. rewrite zpad_length. pose proof (dec_digits_nonempty n). lia. Qed.

Lemma zpad_all_digits (w n : Z) : 0 <= n -> Forall is_digit (zpad w n).
Proof.
  intros Hn. unfold zpad. apply Forall_app. split.
  - apply List.Forall_forall. intros c Hc. apply repeat_spec in Hc. subst c.
    unfold is_digit. change (Z.of_N (N_of_ascii "0")) with 48. lia.
  - by apply dec_digits_all_digits.
Qed.

(** ** [itoa] *)

Lemma store_Some (b : bytes) (bp : Z) (x : ascii) :
  0 <= bp < Z.of_nat (length b) ->
  store b bp x = Some (<[Z.to_nat bp := x]> b).
Proof.
  intros Hbp. unfold store.
  destruct (0 <=? bp) eqn:H1; [|apply Z.leb_gt in H1; lia].
  destruct (bp <? Z.of_nat (length b)) eqn:H2; [done|apply Z.ltb_ge in H2; lia].
Qed.

Lemma store_None (b : bytes) (bp : Z) (x : ascii) :
  bp < 0 -> store b bp x = None.
Proof.
  intros Hbp. unfold store.
  destruct (0 <=? bp) eqn:H1; [apply Z.leb_le in H1; lia|done].
Qed.

Lemma drop_store (b : bytes) (bp : Z) (x : ascii) :
  0 <= bp < Z.of_nat (length b) ->
  drop (Z.to_nat bp) (<[Z.to_nat bp := x]> b) = x :: drop (Z.to_nat (bp + 1)) b.
Proof.
  intros Hbp. rewrite insert_take_drop by lia.
  rewrite drop_app_length' by (rewrite length_take; lia).
  do 2 f_equal. lia.
Qed.

Lemma digit_of_quot (i : Z) :
  0 <= i -> byte_of_int (48 + i - Z.quot i 10 * 10) = digit (i mod 10).
Proof.
  intros Hi. unfold digit. f_equal.
  rewrite Z.quot_div_nonneg by lia.
  pose proof (Z.div_mod i 10). lia.
Qed.

(** When the numeral fits below [bp], the loop succeeds and leaves it in
    [b[bp':bp+1]]. *)
Lemma itoa_loop_ok (fuel : nat) : forall (b : bytes) (bp i wid : Z),
  0 <= i ->
  Z.of_nat (length (zpad wid i)) <= bp + 1 ->
  bp < Z.of_nat (length b) ->
  (length (zpad wid i) <= fuel)%nat ->
  exists b',
    itoa_loop fuel b bp i wid
      = Some (Ok (b', bp + 1 - Z.of_nat (length (zpad wid i)))) /\
    length b' = length b /\
    drop (Z.to_nat (bp + 1 - Z.of_nat (length (zpad wid i)))) b'
      = zpad wid i ++ drop (Z.to_nat (bp + 1)) b.
Proof.
  induction fuel as [|fuel IH]; intros b bp i wid Hi Hfit Hbp Hfuel.
  - pose proof (zpad_nonempty wid i). lia.
  - pose proof (zpad_nonempty wid i) as Hne. simpl.
    destruct ((10 <=? i) || (1 <? wid)) eqn:Hcond.
    + assert (Hc : 10 <= i \/ 1 < wid).
      { apply orb_true_iff in Hcond as [Hc|Hc];
          [left; by apply Z.leb_le | right; by apply Z.ltb_lt]. }
      pose proof (zpad_step wid i Hi Hc) as Hstep.
      assert (Hlen : length (zpad wid i) = S (length (zpad (wid - 1) (i / 10)))).
      { rewrite Hstep, length_app. simpl. lia. }
      pose proof (zpad_nonempty (wid - 1) (i / 10)) as Hne'.
      rewrite store_Some by lia.
      rewrite (Z.quot_div_nonneg i 10) by lia.
      destruct (IH (<[Z.to_nat bp := byte_of_int (48 + i - i / 10 * 10)]> b)
                   (bp - 1) (i / 10) (wid - 1)) as (b' & Hrun & Hlen' & Hdrop).
      { apply Z.div_pos; lia. }
      { lia. }
      { rewrite length_insert. lia. }
      { lia. }
      exists b'. rewrite Hrun, Hlen', length_insert.
      split; [do 3 f_equal; lia|]. split; [done|].
      replace (bp + 1 - Z.of_nat (length (zpad wid i)))
        with (bp - 1 + 1 - Z.of_nat (length (zpad (wid - 1) (i / 10)))) by lia.
      rewrite Hdrop. replace (bp - 1 + 1) with bp by lia.
      rewrite drop_store by lia.
      rewrite Hstep, <- app_assoc. simpl. do 2 f_equal.
      rewrite <- (Z.quot_div_nonneg i 10) by lia. by apply digit_of_quot.
    + apply orb_false_iff in Hcond as [H1 H2].
      apply Z.leb_gt in H1. apply Z.ltb_ge in H2.
      rewrite (zpad_last wid i) in * by lia. simpl length in *.
      rewrite store_Some by lia.
      exists (<[Z.to_nat bp := byte_of_int (48 + i)]> b).
      split; [do 3 f_equal; lia|]. split; [apply length_insert|].
      replace (bp + 1 - Z.of_nat 1) with bp by lia.
      by rewrite drop_store by lia.
Qed.

(** When the numeral does not fit, a store below index zero panics. *)
Lemma itoa_loop_panic (fuel : nat) : forall (b : bytes) (bp i wid : Z),
  0 <= i ->
  -1 <= bp < Z.of_nat (length b) ->
  bp + 1 < Z.of_nat (length (zpad wid i)) ->
  bp + 2 <= Z.of_nat fuel ->
  itoa_loop fuel b bp i wid = Some Panic.
Proof.
  induction fuel as [|fuel IH]; intros b bp i wid Hi Hbp Hfit Hfuel; [lia|].
  simpl. destruct (Z.eq_dec bp (-1)) as [->|Hne].
  - rewrite !store_None by lia. by destruct (_ || _).
  - destruct ((10 <=? i) || (1 <? wid)) eqn:Hcond.
    + assert (Hc : 10 <= i \/ 1 < wid).
      { apply orb_true_iff in Hcond as [Hc|Hc];
          [left; by apply Z.leb_le | right; by apply Z.ltb_lt]. }
      pose proof (zpad_step wid i Hi Hc) as Hstep.
      assert (Hlen : length (zpad wid i) = S (length (zpad (wid - 1) (i / 10)))).
      { rewrite Hstep, length_app. simpl. lia. }
      rewrite store_Some by lia.
      rewrite (Z.quot_div_nonneg i 10) by lia.
      apply IH; [apply Z.div_pos; lia | rewrite length_insert; lia | lia | lia].
    + apply orb_false_iff in Hcond as [H1 H2].
      apply Z.leb_gt in H1. apply Z.ltb_ge in H2.
      rewrite (zpad_last wid i) in Hfit by lia. simpl in Hfit. lia.
Qed.

(** The loop stops, with a result or a panic, before the fuel runs out. *)
Lemma itoa_loop_fuel (fuel : nat) : forall (b : bytes) (bp i wid : Z),
  (1 <= fuel)%nat -> bp + 2 <= Z.of_nat fuel ->
  itoa_loop fuel b bp i wid <> None.
Proof.
  induction fuel as [|fuel IH]; intros b bp i wid H1 Hfuel; [lia|].
  simpl. destruct (_ || _).
  - unfold store. destruct (_ && _) eqn:Hin; [|done].
    apply andb_true_iff in Hin as [Hlo _]. apply Z.leb_le in Hlo.
    apply IH; lia.
  - by destruct (store _ _ _).
Qed.

Lemma itoa_total (i wid : Z) : itoa_loop 21 scratch 19 i wid <> None.
Proof. apply itoa_loop_fuel; lia. Qed.

Lemma itoa_zpad (buf : bytes) (i wid : Z) :
  0 <= i -> (length (zpad wid i) <= 20)%nat ->
  itoa buf i wid = Ok (buf ++ zpad wid i).
Proof.
  intros Hi Hlen. unfold itoa.
  destruct (itoa_loop_ok 21 scratch 19 i wid) as (b' & -> & Hb' & Hdrop);
    [done | lia | simpl; lia | lia |].
  rewrite Hdrop. change (Z.to_nat (19 + 1)) with (length scratch).
  by rewrite drop_all, app_nil_r.
Qed.

Lemma itoa_overflow (buf : bytes) (i wid : Z) :
  0 <= i -> (20 < length (zpad wid i))%nat -> itoa buf i wid = Panic.
Proof.
  intros Hi Hlen. unfold itoa.
  rewrite itoa_loop_panic; [done | done | simpl; lia | lia | lia].
Qed.

Lemma zpad_length_le (w n : Z) :
  0 <= n < 10 ^ 20 -> w <= 20 -> (length (zpad w n) <= 20)%nat.
Proof.
  intros Hn Hw. rewrite zpad_length.
  pose proof (dec_digits_length_bound 19 n Hn). lia.
Qed.

(** C7. For every non-negative [i] (every Go [int], and more) and every
    minimum width [w] up to 20, [itoa] appends the decimal numeral of [i]
    padded on the left with zeros to at least [w] characters. Nothing is
    cut off: the appended characters are digits that denote [i], and they
    are [max w (number of digits of i)] many. So 7 at width 2 gives 07 and
    12345 at width 4 gives 12345. *)
Theorem itoa_zero_padded (buf : bytes) (i w : Z) :
  0 <= i < 10 ^ 20 -> w <= 20 ->
  itoa buf i w = Ok (buf ++ zpad w i) /\
  Forall is_digit (zpad w i) /\
  dec_value (zpad w i) = i /\
  w <= Z.of_nat (length (zpad w i)) /\
  length (zpad w i) = Nat.max (Z.to_nat w) (length (dec_digits i)) /\
  itoa [] 7 2 = Ok (lit "07") /\
  itoa [] 12345 4 = Ok (lit "12345").
Proof.
  intros Hi Hw. split; [apply itoa_zpad; [lia | by apply zpad_length_le]|].
  split; [apply zpad_all_digits; lia|].
  split; [unfold zpad; rewrite dec_value_zeros; apply dec_value_dec_digits; lia|].
  split; [rewrite zpad_length; lia|].
  split; [apply zpad_length|].
  split; reflexivity.
Qed.

Lemma itoa_zero_padded_witness :
  itoa (lit "x") 2024 4 = Ok (lit "x" ++ zpad 4 2024).
Proof. apply (itoa_zero_padded (lit "x") 2024 4); lia. Defined.

(** C10. For every non-negative [i] of at most twenty digits and every width
    [w <= 20] the loop of [itoa] ends with a result: every store hits an
    index of the twenty-byte array, and the index left in [bp] is one. The
    bound on the width is needed: for any width above 20 a store below
    index zero panics. *)
Theorem itoa_in_bounds (i w : Z) :
  (0 <= i < 10 ^ 20 -> w <= 20 ->
   exists b bp, itoa_loop 21 scratch 19 i w = Some (Ok (b, bp)) /\
                0 <= bp <= 19 /\ length b = 20%nat) /\
  (0 <= i -> 20 < w ->
   itoa_loop 21 scratch 19 i w = Some Panic /\ itoa [] i w = Panic).
Proof.
  split.
  - intros Hi Hw. pose proof (zpad_length_le w i Hi Hw) as Hlen.
    pose proof (zpad_nonempty w i) as Hne.
    destruct (itoa_loop_ok 21 scratch 19 i w) as (b' & Hrun & Hb' & _);
      [lia | lia | simpl; lia | lia |].
    exists b', (19 + 1 - Z.of_nat (length (zpad w i))).
    split; [done|]. split; [lia|]. by rewrite Hb'.
  - intros Hi Hw.
    assert (Hlen : (20 < length (zpad w i))%nat) by (rewrite zpad_length; lia).
    split; [|by apply itoa_overflow].
    apply itoa_loop_panic; [done | simpl; lia | lia | lia].
Qed.

Lemma itoa_in_bounds_witness :
  (exists b bp, itoa_loop 21 scratch 19 999999 6 = Some (Ok (b, bp)) /\
                0 <= bp <= 19 /\ length b = 20%nat) /\
  (itoa_loop 21 scratch 19 0 21 = Some Panic /\ itoa [] 0 21 = Panic).
Proof.
  split.
  - apply (itoa_in_bounds 999999 6); lia.
  - apply (itoa_in_bounds 0 21); lia.
Defined.

(** ** Enabled levels *)

Lemma Log_valid_code (v : Z) : Log.valid v <-> exists s, v = Log.code s.
Proof.
  unfold Log.valid, Log.TRACE, Log.ERROR. split.
  - intros Hv.
    assert (Hc : v = 0 \/ v = 1 \/ v = 2 \/ v = 3 \/ v = 4) by lia.
    destruct Hc as [->|[->|[->|[->| ->]]]];
      [by exists SevTrace | by exists SevDebug | by exists SevInfo
       | by exists SevWarn | by exists SevError].
  - intros [[] ->]; simpl; unfold Log.ERROR, Log.WARN, Log.INFO, Log.DEBUG,
      Log.TRACE; lia.
Qed.

Lemma Part000_valid_code (v : Z) :
  Part000.valid v <-> exists s, v = Part000.code s.
Proof.
  unfold Part000.valid, Part000.LevelTrace, Part000.LevelError. split.
  - intros Hv.
    assert (Hc : v = 0 \/ v = 1 \/ v = 2 \/ v = 3 \/ v = 4) by lia.
    destruct Hc as [->|[->|[->|[->| ->]]]];
      [by exists SevError | by exists SevWarn | by exists SevInfo
       | by exists SevDebug | by exists SevTrace].
  - intros [[] ->]; simpl; unfold Part000.LevelError, Part000.LevelWarn,
      Part000.LevelInfo, Part000.LevelDebug, Part000.LevelTrace; lia.
Qed.

(** C1. In both files, on a logger whose threshold is the level [T],
    [IsLevel(L)] is true exactly when [L] is at least as severe as [T] in
    the order ERROR > WARN > INFO > DEBUG > TRACE, although the two files
    number the levels in opposite directions. *)
Theorem IsLevel_severity {W : Type} (l : Logger W) (L T : Severity) :
  (level l = Log.code T ->
   Log.IsLevel l (Log.code L) = at_least_as_severe L T) /\
  (level l = Part000.code T ->
   Part000.IsLevel l (Part000.code L) = at_least_as_severe L T).
Proof.
  split; intros Hl.
  - unfold Log.IsLevel. rewrite Hl. by destruct L, T.
  - unfold Part000.IsLevel. rewrite Hl. by destruct L, T.
Qed.

Lemma IsLevel_severity_witness :
  Log.IsLevel (New stderr Log.INFO) Log.WARN = true /\
  Part000.IsLevel (New stderr Part000.LevelInfo) Part000.LevelDebug = false.
Proof.
  split.
  - apply (IsLevel_severity (New stderr Log.INFO) SevWarn SevInfo). reflexivity.
  - apply (IsLevel_severity (New stderr Part000.LevelInfo) SevDebug SevInfo).
    reflexivity.
Defined.

(** C5. In both files a call of Warn, Info, Debug or Trace (and of their
    formatted forms, where the file has them) whose level is not enabled
    does nothing: it returns with the logger as it was (threshold, sink,
    flags and buffer), without a call into fmt and without a write. *)
Theorem disabled_emit_is_silent {W : Type} `{Writer W} `{Fmt}
        (l : Logger W) (e : emit) (format : bytes) (v : list value)
        (now : Time) :
  (Log.IsLevel l (Log.emit_level e) = false ->
   Log.run_emit e l v now = Ok (l, [], Returned)) /\
  (Part000.IsLevel l (Part000.emit_level e) = false ->
   Part000.run_emit e l v now = Ok (l, [], Returned) /\
   Part000.run_emitf e l format v now = Ok (l, [], Returned)).
Proof.
  split.
  - unfold Log.IsLevel. intros Hthr.
    assert (Hlt : (Log.emit_level e <? level l) = true) by lia.
    destruct e; simpl in *;
      unfold Log.Warn, Log.Info, Log.Debug, Log.Trace; by rewrite Hlt.
  - unfold Part000.IsLevel. intros Hthr.
    assert (Hlt : (level l <? Part000.emit_level e) = true) by lia.
    destruct e; simpl in *;
      unfold Part000.Warn, Part000.Info, Part000.Debug, Part000.Trace,
        Part000.Warnf, Part000.Infof, Part000.Debugf, Part000.Tracef;
      by rewrite Hlt.
Qed.

Lemma disabled_emit_is_silent_witness :
  Log.run_emit EmDebug (New stderr Log.WARN) [VString (lit "dropped")] instant
    = Ok (New stderr Log.WARN, [], Returned) /\
  Part000.run_emitf EmTrace (New stderr Part000.LevelInfo) (lit "%s")
                    [VString (lit "dropped")] instant
    = Ok (New stderr Part000.LevelInfo, [], Returned).
Proof.
  split.
  - apply (disabled_emit_is_silent (New stderr Log.WARN) EmDebug []
             [VString (lit "dropped")] instant). reflexivity.
  - apply (disabled_emit_is_silent (New stderr Part000.LevelInfo) EmTrace
             (lit "%s") [VString (lit "dropped")] instant). reflexivity.
Defined.

(** C9. [writef] does what [write] does when [write] is given, as its one
    operand, the string [Sprintf(format, v...)]: the same logger afterwards
    (buffer and sink), the same line handed to the sink, the same error. *)
Theorem writef_is_write_of_Sprintf {W : Type} `{Writer W} `{Fmt}
        (l : Logger W) (lv : Z) (format : bytes) (v : list value)
        (now : Time) :
  Part000.writef l lv format v now
  = Part000.write l lv [VString (Sprintf format v)] now.
Proof.
  unfold Part000.writef, Part000.write, write, Part000.writeHeader.
  by rewrite Sprint_VString.
Qed.

(** ** The header *)

Lemma zpad_fits (w n : Z) :
  0 <= n < 2 ^ 63 -> w <= 20 -> (length (zpad w n) <= 20)%nat.
Proof.
  intros Hn Hw. apply zpad_length_le; [|done].
  assert (2 ^ 63 < 10 ^ 20) by reflexivity. lia.
Qed.

Lemma time_ok_shown {W} (l : Logger W) (now : Time) :
  time_ok now -> civil_ok (shown l now).
Proof. intros [Hw Hz]. unfold shown. by destruct (UTC l). Qed.

Ltac itoa_steps :=
  repeat (rewrite itoa_zpad by (first [lia | apply zpad_fits; lia]);
          cbn [bind]).

Lemma headerParts_text {W} (ERROR : Z) (tag : Logger W -> Z -> bytes)
      (l : Logger W) (buf : bytes) (level : Z) (now : Time) :
  civil_ok (shown l now) ->
  headerParts ERROR tag l buf level now
  = Ok (buf ++ header_text ERROR (tag l level) l level now).
Proof.
  intros (Hy & Hmo & Hd & Hh & Hmi & Hs & Hn).
  assert (Hq : 0 <= nanosecond (shown l now) / 1000 < 2 ^ 63).
  { split; [apply Z.div_pos; lia|].
    apply Z.div_lt_upper_bound; [lia|].
    assert (999999999 < 1000 * 2 ^ 63) by reflexivity. lia. }
  unfold headerParts, header_text, head_colour, date_text, calendar_text,
    time_text, clock_text, Date, Clock, Nanosecond.
  replace (wall (if UTC l then Time_UTC now else now)) with (shown l now)
    by (unfold shown; by destruct (UTC l)).
  rewrite (Z.quot_div_nonneg (nanosecond (shown l now)) 1000) by lia.
  destruct (HeadLevel l), (Color l), (level =? ERROR), (HeadDate l),
    (HeadTime l), (HeadMC l); cbn [orb bind]; itoa_steps;
    by rewrite <- ?app_assoc, ?app_nil_r.
Qed.

Lemma take_pred_removelast (s : bytes) :
  take (Z.to_nat (Z.of_nat (length s) - 1)) s = removelast s.
Proof.
  replace (Z.to_nat (Z.of_nat (length s) - 1)) with (Nat.pred (length s)) by lia.
  symmetry. apply removelast_firstn_len.
Qed.

Lemma writeHeader_text {W} (ERROR : Z) (tag : Logger W -> Z -> bytes)
      (l : Logger W) (level : Z) (now : Time) :
  civil_ok (shown l now) ->
  writeHeader ERROR tag l [] level now
  = Ok (header_end (Color l) (header_text ERROR (tag l level) l level now)).
Proof.
  intros Hok. unfold writeHeader. rewrite headerParts_text by done.
  cbn [bind app]. set (w := header_text _ _ _ _ _).
  rewrite take_pred_removelast.
  destruct w as [|c w]; [done|].
  destruct (Z.of_nat (length (c :: w)) =? 0) eqn:Hz;
    [simpl in Hz; lia|].
  unfold header_end. by destruct (Color l).
Qed.

Lemma header_end_space (color : bool) (p : bytes) :
  header_end color (p ++ lit " ")
  = p ++ lit ": " ++ (if color then acolor.Clear else []).
Proof.
  unfold header_end. change (lit " ") with [" "%char].
  destruct (p ++ [" "%char]) eqn:Hp.
  - by destruct p.
  - rewrite <- Hp. by rewrite removelast_last.
Qed.

(** C6. In [src/log.go], with the date and the time on and the colour and
    the level tag off, the header of every instant (calendar fields in their
    documented ranges) is the day, month and year as zero-padded DD.MM.YYYY,
    a space, the 24-hour time as zero-padded HH:MM:SS, then .NNNNNN
    (microseconds) when HeadMC is on, and the colon and space that end the
    header. For 2024-03-05T07:08:09Z in UTC mode that is
    05.03.2024 07:08:09 followed by a colon and a space. *)
Theorem header_date_and_time {W : Type} (l : Logger W) (lv : Z) (now : Time) :
  Color l = false -> HeadLevel l = false ->
  HeadDate l = true -> HeadTime l = true ->
  time_ok now ->
  let c := shown l now in
  Log.writeHeader l [] lv now
  = Ok (zpad 2 (day c) ++ lit "." ++ zpad 2 (month c) ++ lit "."
          ++ zpad 4 (year c) ++ lit " "
          ++ zpad 2 (hour c) ++ lit ":" ++ zpad 2 (minute c) ++ lit ":"
          ++ zpad 2 (second c)
          ++ (if HeadMC l then lit "." ++ zpad 6 (nanosecond c / 1000) else [])
          ++ lit ": ") /\
  (UTC l = true -> HeadMC l = false -> zulu now = march5 ->
   Log.writeHeader l [] lv now = Ok (lit "05.03.2024 07:08:09: ")).
Proof.
  intros Hc Hl Hd Ht Hok c.
  assert (Hhdr : Log.writeHeader l [] lv now
                 = Ok (header_end false
                         ((date_text c ++ clock_text (HeadMC l) c) ++ lit " "))).
  { unfold Log.writeHeader. rewrite writeHeader_text by by apply time_ok_shown.
    unfold header_text, time_text. rewrite Hc, Hl, Hd, Ht. cbn [app]. fold c.
    by rewrite app_assoc. }
  split.
  - rewrite Hhdr, header_end_space. unfold date_text, calendar_text, clock_text.
    by rewrite <- !app_assoc.
  - intros Hu Hmc Hz. rewrite Hhdr. unfold c, shown. by rewrite Hu, Hz, Hmc.
Qed.

Lemma header_date_and_time_witness :
  Log.writeHeader (set_flag (set_flag (New stderr Log.DEBUG) FColor false)
                            FHeadLevel false) [] Log.INFO instant
  = Ok (lit "05.03.2024 07:08:09: ").
Proof.
  apply (header_date_and_time
           (set_flag (set_flag (New stderr Log.DEBUG) FColor false)
                     FHeadLevel false) Log.INFO instant);
    try reflexivity.
  unfold time_ok, civil_ok; simpl; lia.
Defined.

Lemma header_closed_space (color : bool) (p : bytes) :
  header_closed color (p ++ lit " ") (header_end color (p ++ lit " ")).
Proof.
  split.
  - intros Hnil. by destruct p.
  - intros _. exists p. split; [done|apply header_end_space].
Qed.

Lemma header_closed_nil (color : bool) : header_closed color [] [].
Proof. split; [done|]. intros Hne. by destruct Hne. Qed.

(** Outside the one configuration with colour on and neither date nor time,
    the header ends as the contract says. *)
Lemma header_closed_ok {W} (ERROR : Z) (tag : bytes) (l : Logger W)
      (level : Z) (now : Time) :
  (HeadDate l || HeadTime l = true) \/
  (Color l = false /\ exists p, tag = p ++ lit " ") ->
  header_closed (Color l) (header_text ERROR tag l level now)
                (header_end (Color l) (header_text ERROR tag l level now)).
Proof.
  intros Hcase. unfold header_text, time_text, date_text.
  destruct (HeadTime l) eqn:Ht.
  - rewrite !app_assoc. apply header_closed_space.
  - destruct (HeadDate l) eqn:Hd.
    + rewrite app_nil_r, !app_assoc. apply header_closed_space.
    + destruct Hcase as [Hf|[Hc (p & ->)]]; [done|].
      rewrite Hc, !app_nil_r.
      destruct (HeadLevel l); [apply header_closed_space|apply header_closed_nil].
Qed.

Ltac no_escape_lit :=
  repeat (constructor; [discriminate|]); constructor.

Ltac ends_with_space :=
  match goal with
  | |- exists p, ?t = p ++ _ => exists (removelast t); reflexivity
  end.

Lemma Log_tag_plain {W} (l : Logger W) (lv : Z) :
  Color l = false ->
  (exists p, Log.getHeaderLevel l lv = p ++ lit " ") /\
  no_escape (Log.getHeaderLevel l lv).
Proof.
  intros Hc. unfold Log.getHeaderLevel. rewrite Hc.
  repeat match goal with |- context [if ?b then _ else _] => destruct b end;
    (split; [ends_with_space | no_escape_lit]).
Qed.

Lemma Part000_tag_plain {W} (l : Logger W) (lv : Z) :
  Color l = false ->
  (exists p, Part000.getHeaderLevel l lv = p ++ lit " ") /\
  no_escape (Part000.getHeaderLevel l lv).
Proof.
  intros Hc. unfold Part000.getHeaderLevel. rewrite Hc.
  repeat match goal with |- context [if ?b then _ else _] => destruct b end;
    (split; [ends_with_space | no_escape_lit]).
Qed.

Lemma Log_header_closed {W} (l : Logger W) (lv : Z) (now : Time) :
  time_ok now ->
  Color l = false \/ HeadDate l || HeadTime l = true ->
  exists written header,
    Log.headerParts l [] lv now = Ok written /\
    Log.writeHeader l [] lv now = Ok header /\
    header_closed (Color l) written header.
Proof.
  intros Hok Hcase. apply (time_ok_shown l) in Hok.
  unfold Log.headerParts, Log.writeHeader.
  rewrite headerParts_text, writeHeader_text by done.
  do 2 eexists. do 2 (split; [reflexivity|]).
  apply header_closed_ok. destruct Hcase as [Hc|Hd]; [right|by left].
  split; [done|]. by apply Log_tag_plain.
Qed.

Lemma Part000_header_closed {W} (l : Logger W) (lv : Z) (now : Time) :
  time_ok now ->
  Color l = false \/ HeadDate l || HeadTime l = true ->
  exists written header,
    Part000.headerParts l [] lv now = Ok written /\
    Part000.writeHeader l [] lv now = Ok header /\
    header_closed (Color l) written header.
Proof.
  intros Hok Hcase. apply (time_ok_shown l) in Hok.
  unfold Part000.headerParts, Part000.writeHeader.
  rewrite headerParts_text, writeHeader_text by done.
  do 2 eexists. do 2 (split; [reflexivity|]).
  apply header_closed_ok. destruct Hcase as [Hc|Hd]; [right|by left].
  split; [done|]. by apply Part000_tag_plain.
Qed.

(** C2. With colour on and neither date nor time, the last byte the header
    steps wrote is the [m] that ends the colour escape, not a space, and
    [writeHeader] removes it all the same: in both files the header of an
    INFO line is then ESC[90 followed by the colon, the space and the reset,
    which is not what the contract describes. *)
Theorem header_cuts_colour_escape :
  Log.headerParts (bare stderr Log.DEBUG) [] Log.INFO instant
    = Ok (ESC :: lit "[90m") /\
  Log.writeHeader (bare stderr Log.DEBUG) [] Log.INFO instant
    = Ok (ESC :: lit "[90: " ++ acolor.Clear) /\
  Part000.headerParts (bare stderr Part000.LevelTrace) [] Part000.LevelInfo instant
    = Ok (ESC :: lit "[90m") /\
  Part000.writeHeader (bare stderr Part000.LevelTrace) [] Part000.LevelInfo instant
    = Ok (ESC :: lit "[90: " ++ acolor.Clear) /\
  ~ header_closed true (ESC :: lit "[90m") (ESC :: lit "[90: " ++ acolor.Clear).
Proof.
  do 4 (split; [reflexivity|]).
  intros [_ Hcl]. destruct Hcl as (p & Hp & _); [done|].
  change (ESC :: lit "[90m") with ((ESC :: lit "[90") ++ ["m"%char]) in Hp.
  change (lit " ") with [" "%char] in Hp.
  apply app_inj_tail in Hp as [_ Hm]. discriminate Hm.
Qed.

(** ** The write path *)

Lemma write_text {W} `{Writer W} `{Fmt} (ERROR : Z)
      (tag : Logger W -> Z -> bytes) (l : Logger W) (lv : Z)
      (v : list value) (now : Time) :
  civil_ok (shown l now) ->
  let line := line_text ERROR (tag l lv) l lv (Sprint v) now in
  write ERROR tag l lv v now
  = Ok (set_buf (set_out l (fst (Write (out l) line))) line,
        [EvFormat; EvWrite line], snd (snd (Write (out l) line))).
Proof.
  intros Hok line. unfold write, line, line_text.
  destruct (Head l).
  - rewrite writeHeader_text by done. cbn [bind].
    destruct (Color l && (lv =? ERROR));
      by destruct (Write (out l) _) as [w [n err]].
  - cbn [bind].
    destruct (Color l && (lv =? ERROR));
      by destruct (Write (out l) _) as [w [n err]].
Qed.

Lemma writef_text {W} `{Writer W} `{Fmt} (l : Logger W) (lv : Z)
      (format : bytes) (v : list value) (now : Time) :
  civil_ok (shown l now) ->
  let line := line_text Part000.LevelError (Part000.getHeaderLevel l lv) l lv
                        (Sprintf format v) now in
  Part000.writef l lv format v now
  = Ok (set_buf (set_out l (fst (Write (out l) line))) line,
        [EvFormat; EvWrite line], snd (snd (Write (out l) line))).
Proof.
  intros Hok line. unfold Part000.writef, Part000.writeHeader, line, line_text.
  destruct (Head l).
  - rewrite writeHeader_text by done. cbn [bind].
    destruct (Color l && (lv =? Part000.LevelError));
      by destruct (Write (out l) _) as [w [n err]].
  - cbn [bind].
    destruct (Color l && (lv =? Part000.LevelError));
      by destruct (Write (out l) _) as [w [n err]].
Qed.

Lemma write_level {W} `{Writer W} `{Fmt} (ERROR : Z)
      (tag : Logger W -> Z -> bytes) (l l' : Logger W) (lv : Z)
      (v : list value) (now : Time) (evs : list event) (err : error) :
  write ERROR tag l lv v now = Ok (l', evs, err) -> level l' = level l.
Proof.
  unfold write. destruct (if Head l then _ else _) as [hdr|]; [|done].
  cbn [bind]. destruct (Write (out l) _) as [w [n e]].
  intros [= <- _ _]. reflexivity.
Qed.

Lemma writef_level {W} `{Writer W} `{Fmt} (l l' : Logger W) (lv : Z)
      (format : bytes) (v : list value) (now : Time) (evs : list event)
      (err : error) :
  Part000.writef l lv format v now = Ok (l', evs, err) -> level l' = level l.
Proof.
  unfold Part000.writef. destruct (if Head l then _ else _) as [hdr|]; [|done].
  cbn [bind]. destruct (Write (out l) _) as [w [n e]].
  intros [= <- _ _]. reflexivity.
Qed.

Ltac after_write Hrun :=
  match type of Hrun with
  | context [write ?E ?t ?l ?lv ?v ?now] =>
      let Hw := fresh "Hw" in
      destruct (write E t l lv v now) as [[[? ?] ?]|] eqn:Hw;
      [apply write_level in Hw; cbn in Hrun; injection Hrun as <- _ _; exact Hw
      |discriminate Hrun]
  | context [Part000.writef ?l ?lv ?f ?v ?now] =>
      let Hw := fresh "Hw" in
      destruct (Part000.writef l lv f v now) as [[[? ?] ?]|] eqn:Hw;
      [apply writef_level in Hw; cbn in Hrun; injection Hrun as <- _ _; exact Hw
      |discriminate Hrun]
  end.

Ltac gated Hrun :=
  match type of Hrun with
  | (if ?b then _ else _) = _ =>
      destruct b; [by injection Hrun as <- _ _|after_write Hrun]
  end.

(** Apart from [SetLevel], no call changes the threshold. *)
Lemma Log_exec_level {W} `{Writer W} `{Fmt} (l l' : Logger W)
      (c : Log.call) (now : Time) (evs : list event) (st : status) :
  Log.exec l c now = Ok (l', evs, st) ->
  (forall v, c <> Log.CSetLevel v) -> level l' = level l.
Proof.
  intros Hrun Hc. destruct c as [|v| |w|f b|lv|v|e v|lv v]; simpl in Hrun;
    try (by injection Hrun as <- _ _).
  - by destruct (Hc v).
  - unfold Log.Error, Log.write, quiet in Hrun. gated Hrun.
  - destruct e; simpl in Hrun;
      unfold Log.Warn, Log.Info, Log.Debug, Log.Trace, Log.write, quiet in Hrun;
      gated Hrun.
  - unfold Log.write in Hrun. after_write Hrun.
Qed.

Lemma Part000_exec_level {W} `{Writer W} `{Fmt} (l l' : Logger W)
      (c : Part000.call) (now : Time) (evs : list event) (st : status) :
  Part000.exec l c now = Ok (l', evs, st) ->
  (forall v, c <> Part000.CSetLevel v) -> level l' = level l.
Proof.
  intros Hrun Hc.
  destruct c as [|v| |w|f b|lv|v|fm v|e v|e fm v|lv v|lv fm v]; simpl in Hrun;
    try (by injection Hrun as <- _ _).
  - by destruct (Hc v).
  - unfold Part000.Error, Part000.write in Hrun. after_write Hrun.
  - unfold Part000.Errorf in Hrun. after_write Hrun.
  - destruct e; simpl in Hrun;
      unfold Part000.Warn, Part000.Info, Part000.Debug, Part000.Trace,
        Part000.write, quiet in Hrun; gated Hrun.
  - destruct e; simpl in Hrun;
      unfold Part000.Warnf, Part000.Infof, Part000.Debugf, Part000.Tracef,
        quiet in Hrun; gated Hrun.
  - unfold Part000.write in Hrun. after_write Hrun.
  - after_write Hrun.
Qed.

Lemma classic_SetLevel {W} `{Fmt} (c : @Part000.call W _) :
  (exists v, c = Part000.CSetLevel v) \/ (forall v, c <> Part000.CSetLevel v).
Proof. destruct c; try (by right); left; by eexists. Qed.

Lemma Part000_SetLevel_level {W} (l : Logger W) (v : Z) :
  level (Part000.SetLevel l v)
  = Z.max Part000.LevelError (Z.min Part000.LevelTrace v).
Proof.
  unfold Part000.SetLevel, Part000.LevelError, Part000.LevelTrace.
  destruct (v <? 0) eqn:H1; [simpl; lia|].
  destruct (v >? 4) eqn:H2; simpl; lia.
Qed.

(** With a well-formed clock reading no call panics. *)
Lemma Log_exec_returns {W} `{Writer W} `{Fmt} (l : Logger W)
      (c : Log.call) (now : Time) :
  time_ok now -> exists r, Log.exec l c now = Ok r.
Proof.
  intros Hok. apply (time_ok_shown l) in Hok.
  destruct c as [|v| |w|f b|lv|v|e v|lv v]; simpl;
    try (by eexists).
  - unfold Log.Error, Log.write. destruct (_ <? _); [by eexists|].
    rewrite write_text by done. by eexists.
  - destruct e; simpl;
      unfold Log.Warn, Log.Info, Log.Debug, Log.Trace, Log.write;
      (destruct (_ <? _); [by eexists|]);
      rewrite write_text by done; by eexists.
  - unfold Log.write. rewrite write_text by done. by eexists.
Qed.

Lemma Part000_exec_returns {W} `{Writer W} `{Fmt} (l : Logger W)
      (c : Part000.call) (now : Time) :
  time_ok now -> exists r, Part000.exec l c now = Ok r.
Proof.
  intros Hok. apply (time_ok_shown l) in Hok.
  destruct c as [|v| |w|f b|lv|v|fm v|e v|e fm v|lv v|lv fm v]; simpl;
    try (by eexists).
  - unfold Part000.Error, Part000.write.
    rewrite write_text by done. by eexists.
  - unfold Part000.Errorf. rewrite writef_text by done. by eexists.
  - destruct e; simpl;
      unfold Part000.Warn, Part000.Info, Part000.Debug, Part000.Trace,
        Part000.write;
      (destruct (_ <? _); [by eexists|]);
      rewrite write_text by done; by eexists.
  - destruct e; simpl;
      unfold Part000.Warnf, Part000.Infof, Part000.Debugf, Part000.Tracef;
      (destruct (_ <? _); [by eexists|]);
      rewrite writef_text by done; by eexists.
  - unfold Part000.write. rewrite write_text by done. by eexists.
  - rewrite writef_text by done. by eexists.
Qed.

(** ** The threshold *)

(** [src/log.go] stores whatever [SetLevel] is given: after [SetLevel(99)]
    the threshold is none of the five levels. *)
Lemma Log_SetLevel_stores_99 :
  ~ Log.valid (level (Log.SetLevel (New stderr Log.DEBUG) 99)).
Proof. unfold Log.valid, Log.SetLevel, Log.ERROR. simpl. lia. Qed.

(** C3, as the code has it. In [part_000], after [SetLevel(v)] the threshold
    is one of the five levels for every [v]: [v] itself when it is in range,
    the nearest of LevelError and LevelTrace otherwise; and every call keeps
    a valid threshold valid. In [src/log.go], [SetLevel(v)] stores [v] as it
    is, in range or not, and no other call changes the threshold. *)
Theorem SetLevel_threshold {W : Type} `{Writer W} `{Fmt}
        (l : Logger W) (v : Z) :
  Part000.valid (level (Part000.SetLevel l v)) /\
  (Part000.valid v -> level (Part000.SetLevel l v) = v) /\
  (v < Part000.LevelError ->
   level (Part000.SetLevel l v) = Part000.LevelError) /\
  (Part000.LevelTrace < v ->
   level (Part000.SetLevel l v) = Part000.LevelTrace) /\
  (forall c now l' evs st,
      Part000.valid (level l) ->
      Part000.exec l c now = Ok (l', evs, st) ->
      Part000.valid (level l')) /\
  level (Log.SetLevel l v) = v /\
  (forall c now l' evs st,
      Log.exec l c now = Ok (l', evs, st) ->
      (forall v', c <> Log.CSetLevel v') ->
      level l' = level l).
Proof.
  pose proof (Part000_SetLevel_level l v) as Hset.
  unfold Part000.valid, Part000.LevelError, Part000.LevelTrace in *.
  split; [lia|]. split; [lia|]. split; [lia|]. split; [lia|].
  split; [|split; [done|]].
  - intros c now l' evs st Hv Hrun.
    destruct (classic_SetLevel c) as [[v' ->]|Hc].
    + simpl in Hrun. injection Hrun as <- _ _.
      pose proof (Part000_SetLevel_level l v') as Hset'.
      unfold Part000.LevelError, Part000.LevelTrace in Hset'. lia.
    + by rewrite (Part000_exec_level _ _ _ _ _ _ Hrun Hc).
  - intros c now l' evs st Hrun Hc. by apply (Log_exec_level _ _ _ _ _ _ Hrun).
Qed.

Lemma SetLevel_threshold_witness :
  level (Part000.SetLevel (New stderr Part000.LevelInfo) 3) = 3 /\
  level (Part000.SetLevel (New stderr Part000.LevelInfo) (-7))
    = Part000.LevelError /\
  level (Part000.SetLevel (New stderr Part000.LevelInfo) 99)
    = Part000.LevelTrace /\
  Part000.valid
    (level (Part000.SetLevel (New stderr Part000.LevelInfo) 99)).
Proof.
  destruct (SetLevel_threshold (New stderr Part000.LevelInfo) 3)
    as (_ & Hin & _).
  destruct (SetLevel_threshold (New stderr Part000.LevelInfo) (-7))
    as (_ & _ & Hlow & _).
  destruct (SetLevel_threshold (New stderr Part000.LevelInfo) 99)
    as (Hvalid & _ & _ & Hhigh & _).
  split; [|split; [|split]].
  - apply Hin. unfold Part000.valid, Part000.LevelError, Part000.LevelTrace. lia.
  - apply Hlow. unfold Part000.LevelError. lia.
  - apply Hhigh. unfold Part000.LevelTrace. lia.
  - exact Hvalid.
Defined.

(** ** Fatal errors *)

(** In [src/log.go] a threshold above ERROR makes [Error] return: nothing is
    written and the process goes on. *)
Lemma Log_Error_returns_at_threshold_5 :
  ~ fatal 1 (New stderr 5)
      (Log.Error (New stderr 5) [VString (lit "disk full")] instant).
Proof. intros (l' & line & Hrun & _). discriminate Hrun. Qed.

(** C4, as the code has it. In [part_000], [Error] and [Errorf] render the
    message, hand the line to the sink and exit with code 1, in every state
    of the logger and whatever the sink answers. In [src/log.go], [Error]
    does the same when the threshold is at most ERROR, which every valid
    threshold is; above ERROR it returns without writing or exiting. *)
Theorem Error_is_fatal {W : Type} `{Writer W} `{Fmt}
        (l : Logger W) (format : bytes) (v : list value) (now : Time) :
  time_ok now ->
  fatal 1 l (Part000.Error l v now) /\
  fatal 1 l (Part000.Errorf l format v now) /\
  (level l <= Log.ERROR -> fatal 1 l (Log.Error l v now)) /\
  (Log.ERROR < level l -> Log.Error l v now = Ok (l, [], Returned)).
Proof.
  intros Hok. apply (time_ok_shown l) in Hok.
  split; [|split; [|split]].
  - unfold Part000.Error, Part000.write. rewrite write_text by done.
    cbn. by do 2 eexists.
  - unfold Part000.Errorf. rewrite writef_text by done.
    cbn. by do 2 eexists.
  - intros Hlv. unfold Log.Error, Log.write.
    destruct (Log.ERROR <? level l) eqn:Hthr; [lia|].
    rewrite write_text by done. cbn. by do 2 eexists.
  - intros Hlv. unfold Log.Error.
    destruct (Log.ERROR <? level l) eqn:Hthr; [done|lia].
Qed.

Lemma Error_is_fatal_witness :
  fatal 1 (New broken_pipe Part000.LevelWarn)
    (Part000.Error (New broken_pipe Part000.LevelWarn)
                   [VString (lit "disk full")] instant) /\
  fatal 1 (New broken_pipe Log.TRACE)
    (Log.Error (New broken_pipe Log.TRACE) [VString (lit "disk full")] instant) /\
  Log.Error (New stderr 5) [VString (lit "disk full")] instant
    = Ok (New stderr 5, [], Returned).
Proof.
  assert (Hok : time_ok instant) by (unfold time_ok, civil_ok; simpl; lia).
  destruct (Error_is_fatal (New broken_pipe Part000.LevelWarn) []
              [VString (lit "disk full")] instant Hok) as (Hpart & _).
  destruct (Error_is_fatal (New broken_pipe Log.TRACE) []
              [VString (lit "disk full")] instant Hok) as (_ & _ & Hlog & _).
  destruct (Error_is_fatal (New stderr 5) []
              [VString (lit "disk full")] instant Hok) as (_ & _ & _ & Hthr).
  split; [exact Hpart|split].
  - apply Hlog. unfold Log.ERROR, Log.TRACE. simpl. lia.
  - apply Hthr. unfold Log.ERROR. simpl. lia.
Defined.

(** ** Colour *)

Lemma no_escape_zpad (w n : Z) : 0 <= n -> no_escape (zpad w n).
Proof.
  intros Hn. unfold no_escape.
  eapply Forall_impl; [by apply zpad_all_digits|]. apply is_digit_not_ESC.
Qed.

Ltac no_escape_parts :=
  repeat first
    [ apply no_escape_zpad; lia
    | apply Forall_app_2
    | no_escape_lit ].

Lemma no_escape_date_text (c : Civil) : civil_ok c -> no_escape (date_text c).
Proof.
  intros (Hy & Hmo & Hd & _).
  unfold date_text, calendar_text, no_escape. no_escape_parts.
Qed.

Lemma no_escape_clock_text (mc : bool) (c : Civil) :
  civil_ok c -> no_escape (clock_text mc c).
Proof.
  intros (_ & _ & _ & Hh & Hmi & Hs & Hn). unfold clock_text, no_escape.
  assert (0 <= nanosecond c / 1000) by (apply Z.div_pos; lia).
  destruct mc; no_escape_parts.
Qed.

(** With the date or the time on, the header steps end with the space that
    follows them. *)
Lemma stamp_split {W} (l : Logger W) (c : Civil) :
  civil_ok c -> HeadDate l || HeadTime l = true ->
  exists stamp,
    (if HeadDate l then date_text c else [])
      ++ (if HeadTime l then time_text (HeadMC l) c else [])
    = stamp ++ lit " " /\ no_escape stamp.
Proof.
  intros Hok Hon. pose proof (no_escape_date_text c Hok) as Hd.
  pose proof (no_escape_clock_text (HeadMC l) c Hok) as Hc.
  unfold time_text. destruct (HeadDate l), (HeadTime l); try done.
  - exists (date_text c ++ clock_text (HeadMC l) c).
    split; [by rewrite app_assoc | by apply Forall_app_2].
  - exists (calendar_text c). split; [by rewrite app_nil_r|].
    unfold date_text in Hd. by apply Forall_app in Hd as [Hd _].
  - by exists (clock_text (HeadMC l) c).
Qed.

Lemma no_escape_header_end (written : bytes) :
  no_escape written -> no_escape (header_end false written).
Proof.
  intros Hw. unfold header_end. destruct written as [|c w]; [constructor|].
  apply Forall_app_2; [|no_escape_lit].
  rewrite removelast_firstn_len. by apply Forall_take.
Qed.

Lemma header_text_plain {W} (ERROR : Z) (tag : bytes) (l : Logger W)
      (level : Z) (now : Time) :
  Color l = false -> no_escape tag -> civil_ok (shown l now) ->
  no_escape (header_text ERROR tag l level now).
Proof.
  intros Hc Htag Hok. unfold header_text, time_text. rewrite Hc.
  pose proof (no_escape_date_text _ Hok).
  pose proof (no_escape_clock_text (HeadMC l) _ Hok).
  unfold no_escape in *.
  destruct (HeadLevel l), (HeadDate l), (HeadTime l);
    repeat first [assumption | apply Forall_app_2 | no_escape_lit].
Qed.

(** Colour off: no escape byte in the line, whatever the configuration. *)
Lemma Log_line_plain {W} `{Writer W} `{Fmt} (l : Logger W) (lv : Z)
      (v : list value) (now : Time) :
  time_ok now -> Color l = false -> no_escape (Sprint v) ->
  exists l' line err,
    Log.write l lv v now = Ok (l', [EvFormat; EvWrite line], err) /\
    no_escape line.
Proof.
  intros Hok Hc Hmsg. apply (time_ok_shown l) in Hok.
  unfold Log.write. rewrite write_text by done.
  do 3 eexists. split; [reflexivity|].
  unfold line_text. rewrite Hc. cbn [andb].
  apply Forall_app_2; [|apply Forall_app_2; [done|no_escape_lit]].
  destruct (Head l); [|constructor].
  apply no_escape_header_end, header_text_plain; try done.
  by apply Log_tag_plain.
Qed.

Lemma Bracketed_plain (escs : list bytes) (t s : bytes) :
  no_escape t -> Bracketed escs s -> Bracketed escs (t ++ s).
Proof.
  intros Ht Hs. induction Ht as [|c t Hc _ IH]; [done|].
  simpl. by apply Br_plain.
Qed.

Lemma Log_tag_run {W} (l : Logger W) (s : Severity) :
  Color l = true ->
  exists t,
    Log.getHeaderLevel l (Log.code s)
    = acolor.Apply [acolor.Bold; tag_colour s] ++ t ++ acolor.Clear /\
    no_escape t.
Proof.
  intros Hc. unfold Log.getHeaderLevel. rewrite Hc.
  destruct s; cbn;
    [ exists (lit "[ERROR] ") | exists (lit "[WARN]  ") | exists (lit "[INFO]  ")
    | exists (lit "[DEBUG] ") | exists (lit "[TRACE] ") ];
    (split; [reflexivity | no_escape_lit]).
Qed.

Lemma Log_head_colour (s : Severity) :
  head_colour Log.ERROR (Log.code s) = acolor.Apply [text_colour s].
Proof. by destruct s. Qed.

(** Colour on: outside the configuration of [line_with_cut_escape], every
    escape byte of the line belongs to a run opened by an escape of the
    level and closed by the reset. *)
Lemma Log_line_bracketed {W} `{Writer W} `{Fmt} (l : Logger W)
      (s : Severity) (v : list value) (now : Time) :
  time_ok now -> Color l = true ->
  Head l = false \/ HeadDate l || HeadTime l = true ->
  no_escape (Sprint v) ->
  exists l' line err,
    Log.write l (Log.code s) v now = Ok (l', [EvFormat; EvWrite line], err) /\
    Bracketed (escapes s) line.
Proof.
  intros Hok Hc Hcase Hmsg. apply (time_ok_shown l) in Hok.
  unfold Log.write. rewrite write_text by done.
  do 3 eexists. split; [reflexivity|].
  unfold line_text. rewrite Hc. cbn [andb].
  assert (Hnl : Bracketed (escapes s) newline)
    by (apply Br_plain; [discriminate|constructor]).
  assert (Hbody : Bracketed (escapes s)
                    (if Log.code s =? Log.ERROR
                     then acolor.Apply [acolor.Red] ++ Sprint v
                            ++ acolor.Clear ++ newline
                     else Sprint v ++ newline)).
  { destruct s; cbn [Log.code Z.eqb]; try (by apply Bracketed_plain).
    apply Br_run; [right; by left|done|done]. }
  destruct (Head l); [|done].
  destruct Hcase as [Hf|Hon]; [done|].
  destruct (stamp_split l (shown l now) Hok Hon) as (stamp & Hst & Hne).
  unfold header_text. rewrite Hc, Hst, Log_head_colour.
  rewrite !app_assoc, header_end_space, <- !app_assoc.
  assert (Hrun : Bracketed (escapes s)
            (acolor.Apply [text_colour s] ++ (stamp ++ lit ": ")
               ++ acolor.Clear
               ++ (if Log.code s =? Log.ERROR
                   then acolor.Apply [acolor.Red] ++ Sprint v
                          ++ acolor.Clear ++ newline
                   else Sprint v ++ newline))).
  { apply Br_run; [right; by left| |done].
    apply Forall_app_2; [done|no_escape_lit]. }
  rewrite <- !app_assoc in Hrun.
  destruct (HeadLevel l); [|exact Hrun].
  destruct (Log_tag_run l s Hc) as (t & -> & Ht).
  rewrite <- !app_assoc. apply Br_run; [by left|done|exact Hrun].
Qed.

Lemma Bracketed_inv (escs : list bytes) (s : bytes) :
  Bracketed escs s ->
  s = [] \/
  (exists c s', s = c :: s' /\ c <> ESC /\ Bracketed escs s') \/
  (exists e t s', In e escs /\ no_escape t /\ Bracketed escs s' /\
                  s = e ++ t ++ acolor.Clear ++ s').
Proof.
  intros Hb. destruct Hb as [|c s Hc Hs|e t s He Ht Hs].
  - by left.
  - right. left. by exists c, s.
  - right. right. by exists e, t, s.
Qed.

(** C8. With colour on, the header on and neither date nor time in it,
    [src/log.go] emits for an INFO message a line that starts with ESC[90,
    the colon and the space: the escape that should open the header's run
    has lost its final [m], so the run is not opened by the escape sequence
    of the level. *)
Theorem line_with_cut_escape :
  exists l' err,
    Log.write (bare stderr Log.DEBUG) Log.INFO [VString (lit "ready")] instant
    = Ok (l', [EvFormat;
               EvWrite (ESC :: lit "[90: " ++ acolor.Clear ++ lit "ready"
                          ++ newline)], err) /\
    ~ Bracketed (escapes SevInfo)
        (ESC :: lit "[90: " ++ acolor.Clear ++ lit "ready" ++ newline).
Proof.
  do 2 eexists. split; [reflexivity|].
  intros Hb.
  apply Bracketed_inv in Hb
    as [Hnil|[(c & s & Heq & Hc & _)|(e & t & s & He & _ & _ & Heq)]].
  - discriminate Hnil.
  - injection Heq as <- _. by destruct Hc.
  - destruct He as [<-|[<-|[]]]; discriminate Heq.
Qed.

(** * Further properties *)

(** ** [itoa] on any integer *)

Lemma quot10_small (i : Z) : i < 10 -> Z.quot i 10 < 10.
Proof.
  intros Hi. pose proof (Z.quot_le_mono i 9 10 ltac:(lia) ltac:(lia)) as Hq.
  change (Z.quot 9 10) with 0 in Hq. lia.
Qed.

(** Below ten the loop is driven by the width alone. *)
Lemma itoa_loop_small (fuel : nat) : forall (b : bytes) (bp i wid : Z),
  i < 10 ->
  Z.max 0 (wid - 1) <= bp -> bp < Z.of_nat (length b) ->
  Z.max 0 (wid - 1) + 1 <= Z.of_nat fuel ->
  exists b',
    itoa_loop fuel b bp i wid = Some (Ok (b', bp - Z.max 0 (wid - 1))) /\
    length b' = length b.
Proof.
  induction fuel as [|fuel IH]; intros b bp i wid Hi Hfit Hbp Hfuel; [lia|].
  simpl. replace (10 <=? i) with false by (symmetry; apply Z.leb_gt; lia).
  cbn [orb]. destruct (1 <? wid) eqn:Hw.
  - apply Z.ltb_lt in Hw. rewrite store_Some by lia.
    destruct (IH (<[Z.to_nat bp := byte_of_int (48 + i - Z.quot i 10 * 10)]> b)
                 (bp - 1) (Z.quot i 10) (wid - 1)) as (b' & Hrun & Hlen).
    { by apply quot10_small. }
    { lia. }
    { rewrite length_insert. lia. }
    { lia. }
    exists b'. rewrite Hrun, Hlen, length_insert.
    split; [do 3 f_equal; lia|done].
  - apply Z.ltb_ge in Hw. rewrite store_Some by lia.
    eexists. split; [do 3 f_equal; lia|apply length_insert].
Qed.

Lemma itoa_small (buf : bytes) (i wid : Z) :
  i < 10 -> wid <= 20 ->
  exists s, itoa buf i wid = Ok (buf ++ s) /\
            length s = Z.to_nat (Z.max 1 wid).
Proof.
  intros Hi Hw. unfold itoa.
  destruct (itoa_loop_small 21 scratch 19 i wid) as (b' & -> & Hlen);
    [done | lia | simpl; lia | lia |].
  eexists. split; [reflexivity|].
  rewrite length_drop, Hlen. simpl length. lia.
Qed.

Lemma itoa_ok (buf : bytes) (i w : Z) :
  i < 10 ^ 20 -> w <= 20 -> exists s, itoa buf i w = Ok (buf ++ s).
Proof.
  intros Hi Hw. destruct (Z_lt_le_dec i 10) as [Hlt|Hge].
  - destruct (itoa_small buf i w Hlt Hw) as (s & Hrun & _). by exists s.
  - exists (zpad w i). apply itoa_zpad; [lia|apply zpad_length_le; lia].
Qed.

(** X1. For every integer [i] below 10^20, negative ones included, and
    every width up to 20, [itoa] does not panic: it keeps what the buffer
    held and appends between [max 1 w] and 20 bytes, exactly [max 1 w] when
    [i] is below ten. *)
Theorem itoa_returns (buf : bytes) (i w : Z) :
  i < 10 ^ 20 -> w <= 20 ->
  exists s,
    itoa buf i w = Ok (buf ++ s) /\
    (Z.to_nat (Z.max 1 w) <= length s <= 20)%nat /\
    (i < 10 -> length s = Z.to_nat (Z.max 1 w)).
Proof.
  intros Hi Hw. destruct (Z_lt_le_dec i 10) as [Hlt|Hge].
  - destruct (itoa_small buf i w Hlt Hw) as (s & Hrun & Hlen).
    exists s. split; [done|]. split; [lia|done].
  - exists (zpad w i).
    pose proof (zpad_length_le w i ltac:(lia) Hw) as Hle.
    pose proof (zpad_nonempty w i) as Hne.
    split; [apply itoa_zpad; [lia|done]|]. split; [|lia].
    rewrite zpad_length in *. lia.
Qed.

Lemma itoa_returns_witness :
  exists s, itoa (lit "x") (-5) 2 = Ok (lit "x" ++ s) /\
            (Z.to_nat (Z.max 1 2) <= length s <= 20)%nat /\
            (-5 < 10 -> length s = Z.to_nat (Z.max 1 2)).
Proof. apply (itoa_returns (lit "x") (-5) 2); lia. Defined.

(** ** No call panics *)

Lemma pow63_lt : 2 ^ 63 < 10 ^ 20.
Proof. reflexivity. Qed.

Lemma quot1000_int (ns : Z) : ns < 2 ^ 63 -> Z.quot ns 1000 < 10 ^ 20.
Proof.
  intros Hns. pose proof pow63_lt.
  destruct (Z_lt_le_dec ns 0) as [Hneg|Hpos].
  - pose proof (Z.quot_le_mono ns 0 1000 ltac:(lia) ltac:(lia)) as Hq.
    change (Z.quot 0 1000) with 0 in Hq. lia.
  - rewrite Z.quot_div_nonneg by lia.
    pose proof (Z.div_le_upper_bound ns 1000 ns ltac:(lia) ltac:(lia)). lia.
Qed.

Lemma shown_int {W} (l : Logger W) (now : Time) :
  civil_int (wall now) -> civil_int (zulu now) -> civil_int (shown l now).
Proof. intros Hw Hz. unfold shown. by destruct (UTC l). Qed.

Ltac itoa_runs :=
  repeat match goal with
         | |- context [itoa ?b ?i ?w] =>
             let s := fresh "s" in
             let Hs := fresh "Hs" in
             destruct (itoa_ok b i w) as (s & Hs);
             [first [lia | by apply quot1000_int] | lia |];
             rewrite Hs; cbn [bind]
         end.

Lemma headerParts_returns {W} (ERROR : Z) (tag : Logger W -> Z -> bytes)
      (l : Logger W) (buf : bytes) (level : Z) (now : Time) :
  civil_int (shown l now) ->
  exists r, headerParts ERROR tag l buf level now = Ok r.
Proof.
  intros (Hy & Hmo & Hd & Hh & Hmi & Hs & Hn). pose proof pow63_lt.
  unfold headerParts, Date, Clock, Nanosecond.
  replace (wall (if UTC l then Time_UTC now else now)) with (shown l now)
    by (unfold shown; by destruct (UTC l)).
  destruct (HeadDate l), (HeadTime l), (HeadMC l); cbn [orb bind];
    itoa_runs; by eexists.
Qed.

Lemma writeHeader_returns {W} (ERROR : Z) (tag : Logger W -> Z -> bytes)
      (l : Logger W) (buf : bytes) (level : Z) (now : Time) :
  civil_int (shown l now) ->
  exists r, writeHeader ERROR tag l buf level now = Ok r.
Proof.
  intros Hok. unfold writeHeader.
  destruct (headerParts_returns ERROR tag l buf level now Hok) as (r & ->).
  cbn [bind]. destruct (_ =? 0); [by eexists|]. destruct (Color l); by eexists.
Qed.

Lemma write_returns {W} `{Writer W} `{Fmt} (ERROR : Z)
      (tag : Logger W -> Z -> bytes) (l : Logger W) (lv : Z)
      (v : list value) (now : Time) :
  civil_int (shown l now) ->
  exists l' line err,
    write ERROR tag l lv v now = Ok (l', [EvFormat; EvWrite line], err).
Proof.
  intros Hok. unfold write. destruct (Head l).
  - destruct (writeHeader_returns ERROR tag l (take 0 (buf l)) lv now Hok)
      as (r & ->).
    cbn [bind]. destruct (Write (out l) _) as [w [n err]]. by do 3 eexists.
  - cbn [bind]. destruct (Write (out l) _) as [w [n err]]. by do 3 eexists.
Qed.

Lemma writef_returns {W} `{Writer W} `{Fmt} (l : Logger W) (lv : Z)
      (format : bytes) (v : list value) (now : Time) :
  civil_int (shown l now) ->
  exists l' line err,
    Part000.writef l lv format v now = Ok (l', [EvFormat; EvWrite line], err).
Proof.
  intros Hok. unfold Part000.writef, Part000.writeHeader. destruct (Head l).
  - destruct (writeHeader_returns Part000.LevelError Part000.getHeaderLevel l
                (take 0 (buf l)) lv now Hok) as (r & ->).
    cbn [bind]. destruct (Write (out l) _) as [w [n err]]. by do 3 eexists.
  - cbn [bind]. destruct (Write (out l) _) as [w [n err]]. by do 3 eexists.
Qed.

Ltac write_runs Hok :=
  match goal with
  | |- context [write ?E ?t ?l ?lv ?v ?now] =>
      let Hw := fresh "Hw" in
      destruct (write_returns E t l lv v now Hok) as (? & ? & ? & Hw);
      rewrite Hw; by eexists
  | |- context [Part000.writef ?l ?lv ?f ?v ?now] =>
      let Hw := fresh "Hw" in
      destruct (writef_returns l lv f v now Hok) as (? & ? & ? & Hw);
      rewrite Hw; by eexists
  end.

(** X2. Whatever the clock reads, as long as its fields are Go [int]s (a
    negative year included), no call on a logger panics, in either file: the
    scratch array of [itoa] is never indexed out of range on the way. *)
Theorem no_call_panics {W : Type} `{Writer W} `{Fmt} (l : Logger W)
        (c : Log.call) (c' : Part000.call) (now : Time) :
  civil_int (wall now) -> civil_int (zulu now) ->
  (exists r, Log.exec l c now = Ok r) /\
  (exists r, Part000.exec l c' now = Ok r).
Proof.
  intros Hw Hz. pose proof (shown_int l now Hw Hz) as Hok. split.
  - destruct c as [|v| |w|f b|lv|v|e v|lv v]; simpl; try (by eexists).
    + unfold Log.Error, Log.write. destruct (_ <? _); [by eexists|].
      write_runs Hok.
    + destruct e; simpl;
        unfold Log.Warn, Log.Info, Log.Debug, Log.Trace, Log.write;
        (destruct (_ <? _); [by eexists|]); write_runs Hok.
    + unfold Log.write. write_runs Hok.
  - destruct c' as [|v| |w|f b|lv|v|fm v|e v|e fm v|lv v|lv fm v]; simpl;
      try (by eexists).
    + unfold Part000.Error, Part000.write. write_runs Hok.
    + unfold Part000.Errorf. write_runs Hok.
    + destruct e; simpl;
        unfold Part000.Warn, Part000.Info, Part000.Debug, Part000.Trace,
          Part000.write;
        (destruct (_ <? _); [by eexists|]); write_runs Hok.
    + destruct e; simpl;
        unfold Part000.Warnf, Part000.Infof, Part000.Debugf, Part000.Tracef;
        (destruct (_ <? _); [by eexists|]); write_runs Hok.
    + unfold Part000.write. write_runs Hok.
    + write_runs Hok.
Qed.

Lemma no_call_panics_witness :
  exists r,
    Log.exec (New stderr Log.TRACE) (Log.CEmit EmInfo [VString (lit "old")])
             ancient = Ok r.
Proof.
  apply (no_call_panics (New stderr Log.TRACE)
           (Log.CEmit EmInfo [VString (lit "old")]) Part000.CLevel ancient);
    unfold civil_int; simpl; lia.
Defined.

(** ** The gate and the threshold *)

(** X3. In both files and for every threshold, valid or not, a level that
    is enabled enables every more severe level: IsTrace implies IsDebug,
    which implies IsInfo, then IsWarn, then IsError. *)
Theorem gate_is_monotone {W : Type} (l : Logger W) (a b : Severity) :
  at_least_as_severe a b = true ->
  (Log.IsLevel l (Log.code b) = true -> Log.IsLevel l (Log.code a) = true) /\
  (Part000.IsLevel l (Part000.code b) = true ->
   Part000.IsLevel l (Part000.code a) = true) /\
  (Log.IsTrace l = true -> Log.IsDebug l = true) /\
  (Log.IsDebug l = true -> Log.IsInfo l = true) /\
  (Log.IsInfo l = true -> Log.IsWarn l = true) /\
  (Log.IsWarn l = true -> Log.IsError l = true) /\
  (Part000.IsTrace l = true -> Part000.IsDebug l = true) /\
  (Part000.IsDebug l = true -> Part000.IsInfo l = true) /\
  (Part000.IsInfo l = true -> Part000.IsWarn l = true) /\
  (Part000.IsWarn l = true -> Part000.IsError l = true).
Proof.
  intros Hab.
  unfold Log.IsTrace, Log.IsDebug, Log.IsInfo, Log.IsWarn, Log.IsError,
    Part000.IsTrace, Part000.IsDebug, Part000.IsInfo, Part000.IsWarn,
    Part000.IsError, Log.IsLevel, Part000.IsLevel.
  repeat split; destruct a, b; try discriminate Hab;
    cbn [Log.code Part000.code];
    unfold Log.TRACE, Log.DEBUG, Log.INFO, Log.WARN, Log.ERROR,
      Part000.LevelTrace, Part000.LevelDebug, Part000.LevelInfo,
      Part000.LevelWarn, Part000.LevelError; lia.
Qed.

Lemma gate_is_monotone_witness :
  Log.IsLevel (New stderr Log.INFO) (Log.code SevError) = true /\
  Part000.IsWarn (New stderr Part000.LevelTrace) = true.
Proof.
  destruct (gate_is_monotone (New stderr Log.INFO) SevError SevInfo)
    as (Hlog & _); [reflexivity|].
  destruct (gate_is_monotone (New stderr Part000.LevelTrace) SevError SevInfo)
    as (_ & _ & _ & _ & _ & _ & _ & _ & Hinfo & _); [reflexivity|].
  split; [apply Hlog|apply Hinfo]; reflexivity.
Defined.

(** X4. In [part_000], whatever value [SetLevel] is given, ERROR stays
    enabled afterwards, and a level below ERROR is enabled exactly when its
    number is at most the value given: an out-of-range value acts as the
    nearest level. In [src/log.go], ERROR is enabled after [SetLevel(v)]
    exactly when [v] is at most ERROR. *)
Theorem SetLevel_then_gate {W : Type} `{Writer W} `{Fmt} (l : Logger W)
        (v : Z) (e : emit) :
  Part000.IsError (Part000.SetLevel l v) = true /\
  (Part000.IsLevel (Part000.SetLevel l v) (Part000.emit_level e) = true
   <-> Part000.emit_level e <= v) /\
  (Log.IsError (Log.SetLevel l v) = true <-> v <= Log.ERROR).
Proof.
  pose proof (Part000_SetLevel_level l v) as Hset.
  unfold Part000.IsError, Part000.IsLevel, Log.IsError, Log.IsLevel.
  rewrite Hset. unfold Part000.LevelError, Part000.LevelTrace, Log.ERROR.
  split; [lia|]. split.
  - destruct e; simpl; unfold Part000.LevelWarn, Part000.LevelInfo,
      Part000.LevelDebug, Part000.LevelTrace; lia.
  - simpl. lia.
Qed.

(** X5. A threshold above ERROR silences a logger of [src/log.go]
    altogether: after [SetLevel(v)] with such a [v], Error, Warn, Info,
    Debug and Trace all return without a write and without an exit. *)
Theorem Log_silenced {W : Type} `{Writer W} `{Fmt} (l : Logger W) (v : Z)
        (e : emit) (msg : list value) (now : Time) :
  Log.ERROR < v ->
  Log.Error (Log.SetLevel l v) msg now = Ok (Log.SetLevel l v, [], Returned) /\
  Log.run_emit e (Log.SetLevel l v) msg now
  = Ok (Log.SetLevel l v, [], Returned).
Proof.
  intros Hv. unfold Log.Error, Log.ERROR in *. simpl level.
  destruct (4 <? v) eqn:H4; [|lia]. split; [done|].
  destruct e; simpl;
    unfold Log.Warn, Log.Info, Log.Debug, Log.Trace,
      Log.WARN, Log.INFO, Log.DEBUG, Log.TRACE; simpl level;
    match goal with |- context [?a <? v] =>
      destruct (a <? v) eqn:Ha; [done|lia] end.
Qed.

Lemma Log_silenced_witness :
  Log.Error (Log.SetLevel (New stderr Log.DEBUG) 5)
            [VString (lit "disk full")] instant
  = Ok (Log.SetLevel (New stderr Log.DEBUG) 5, [], Returned).
Proof.
  apply (Log_silenced (New stderr Log.DEBUG) 5 EmWarn
           [VString (lit "disk full")] instant).
  unfold Log.ERROR. lia.
Defined.

(** X6. An enabled Warn, Info, Debug or Trace (and, in [part_000], its
    formatted form) renders the message once, hands the sink one block, the
    line of [write], and returns whatever the sink answers: the error of
    the sink is dropped. Afterwards only the buffer and the sink differ. *)
Theorem enabled_emit_writes {W : Type} `{Writer W} `{Fmt} (l : Logger W)
        (e : emit) (format : bytes) (v : list value) (now : Time) :
  time_ok now ->
  (Log.IsLevel l (Log.emit_level e) = true ->
   let line := line_text Log.ERROR (Log.getHeaderLevel l (Log.emit_level e))
                         l (Log.emit_level e) (Sprint v) now in
   Log.run_emit e l v now
   = Ok (set_buf (set_out l (fst (Write (out l) line))) line,
         [EvFormat; EvWrite line], Returned)) /\
  (Part000.IsLevel l (Part000.emit_level e) = true ->
   let tag := Part000.getHeaderLevel l (Part000.emit_level e) in
   let line := line_text Part000.LevelError tag l (Part000.emit_level e)
                         (Sprint v) now in
   let linef := line_text Part000.LevelError tag l (Part000.emit_level e)
                          (Sprintf format v) now in
   Part000.run_emit e l v now
   = Ok (set_buf (set_out l (fst (Write (out l) line))) line,
         [EvFormat; EvWrite line], Returned) /\
   Part000.run_emitf e l format v now
   = Ok (set_buf (set_out l (fst (Write (out l) linef))) linef,
         [EvFormat; EvWrite linef], Returned)).
Proof.
  intros Hok. apply (time_ok_shown l) in Hok. split.
  - unfold Log.IsLevel. intros Hon.
    assert (Hlt : (Log.emit_level e <? level l) = false) by lia.
    destruct e; simpl in *;
      unfold Log.Warn, Log.Info, Log.Debug, Log.Trace, Log.write;
      rewrite Hlt, write_text by done; reflexivity.
  - unfold Part000.IsLevel. intros Hon.
    assert (Hlt : (level l <? Part000.emit_level e) = false) by lia.
    destruct e; simpl in *;
      unfold Part000.Warn, Part000.Info, Part000.Debug, Part000.Trace,
        Part000.Warnf, Part000.Infof, Part000.Debugf, Part000.Tracef,
        Part000.write;
      rewrite Hlt, write_text, writef_text by done; split; reflexivity.
Qed.

Lemma SetLevel_then_gate_witness :
  Part000.IsLevel (Part000.SetLevel (New stderr 0) 99)
                  (Part000.emit_level EmTrace) = true /\
  Log.IsError (Log.SetLevel (New stderr 0) 4) = true.
Proof.
  destruct (SetLevel_then_gate (New stderr 0) 99 EmTrace) as (_ & Hp & _).
  destruct (SetLevel_then_gate (New stderr 0) 4 EmTrace) as (_ & _ & Hl).
  split; [apply Hp|apply Hl].
  - unfold Part000.emit_level, Part000.LevelTrace. lia.
  - unfold Log.ERROR. lia.
Defined.

Lemma enabled_emit_writes_witness :
  exists l' line,
    Log.run_emit EmWarn (New broken_pipe Log.DEBUG) [VString (lit "low disk")]
                 instant
    = Ok (l', [EvFormat; EvWrite line], Returned).
Proof.
  assert (Hok : time_ok instant) by (unfold time_ok, civil_ok; simpl; lia).
  destruct (enabled_emit_writes (New broken_pipe Log.DEBUG) EmWarn []
              [VString (lit "low disk")] instant Hok) as (Hlog & _).
  do 2 eexists. apply Hlog. reflexivity.
Defined.

(** ** The level tag *)

Ltac eqb_cases :=
  repeat match goal with
         | |- context [?a =? ?b] => destruct (Z.eqb_spec a b)
         | H : context [?a =? ?b] |- _ => destruct (Z.eqb_spec a b)
         end.

(** X7. For every level value, in range or not, the tag with colour on is
    the tag with colour off between a bold colour escape and the reset; and
    the tag with colour off is eight bytes wide, so that what follows the
    tag starts in the same column on every line. *)
Theorem tag_is_wrapped_plain_tag {W : Type} (l : Logger W) (lv : Z) :
  (exists c,
      Log.getHeaderLevel (set_flag l FColor true) lv
      = acolor.Apply [acolor.Bold; c]
          ++ Log.getHeaderLevel (set_flag l FColor false) lv ++ acolor.Clear) /\
  length (Log.getHeaderLevel (set_flag l FColor false) lv) = 8%nat /\
  (exists c,
      Part000.getHeaderLevel (set_flag l FColor true) lv
      = acolor.Apply [acolor.Bold; c]
          ++ Part000.getHeaderLevel (set_flag l FColor false) lv
          ++ acolor.Clear) /\
  length (Part000.getHeaderLevel (set_flag l FColor false) lv) = 8%nat.
Proof.
  unfold Log.getHeaderLevel, Part000.getHeaderLevel. cbn [Color set_flag].
  repeat split; eqb_cases; try reflexivity; by eexists.
Qed.

(** X8. With colour off the tag tells the level: in both files two valid
    levels with the same tag are equal. For a value that is no level,
    [src/log.go] prints the tag of ERROR, while [part_000] prints a tag of
    its own, which no level has. *)
Theorem tag_tells_level {W : Type} (l : Logger W) (a b : Z) :
  Color l = false ->
  (Log.valid a -> Log.valid b ->
   Log.getHeaderLevel l a = Log.getHeaderLevel l b -> a = b) /\
  (~ Log.valid a -> Log.getHeaderLevel l a = lit "[ERROR] ") /\
  (Part000.valid a ->
   Part000.getHeaderLevel l a = Part000.getHeaderLevel l b -> a = b) /\
  (~ Part000.valid a -> Part000.getHeaderLevel l a = lit "[]      ").
Proof.
  intros Hc. unfold Log.getHeaderLevel, Part000.getHeaderLevel,
    Log.valid, Part000.valid. rewrite Hc.
  unfold Log.TRACE, Log.DEBUG, Log.INFO, Log.WARN, Log.ERROR,
    Part000.LevelTrace, Part000.LevelDebug, Part000.LevelInfo,
    Part000.LevelWarn, Part000.LevelError.
  repeat split; intros; eqb_cases; try done; lia.
Qed.

Lemma tag_tells_level_witness :
  Log.getHeaderLevel (set_flag (New stderr 0) FColor false) 7 = lit "[ERROR] " /\
  Part000.getHeaderLevel (set_flag (New stderr 0) FColor false) 7
  = lit "[]      ".
Proof.
  destruct (tag_tells_level (set_flag (New stderr 0) FColor false) 7 7)
    as (_ & Hlog & _ & Hpart); [reflexivity|].
  split; [apply Hlog|apply Hpart];
    unfold Log.valid, Part000.valid, Log.TRACE, Log.ERROR,
      Part000.LevelError, Part000.LevelTrace; lia.
Defined.

(** ** One call, one line *)

Lemma is_digit_not_newline (c : ascii) : is_digit c -> c <> "010"%char.
Proof.
  intros Hc ->. unfold is_digit in Hc.
  change (Z.of_N (N_of_ascii "010")) with 10 in Hc. lia.
Qed.

Lemma zpad_one_line (w n : Z) : 0 <= n -> avoids "010" (zpad w n).
Proof.
  intros Hn. unfold avoids.
  eapply Forall_impl; [by apply zpad_all_digits|]. apply is_digit_not_newline.
Qed.

Ltac one_line_parts :=
  repeat first
    [ assumption
    | apply zpad_one_line; lia
    | apply Forall_app_2
    | no_escape_lit ].

Lemma date_text_one_line (c : Civil) : civil_ok c -> avoids "010" (date_text c).
Proof.
  intros (Hy & Hmo & Hd & _).
  unfold date_text, calendar_text, avoids. one_line_parts.
Qed.

Lemma time_text_one_line (mc : bool) (c : Civil) :
  civil_ok c -> avoids "010" (time_text mc c).
Proof.
  intros (_ & _ & _ & Hh & Hmi & Hs & Hn). unfold time_text, clock_text, avoids.
  assert (0 <= nanosecond c / 1000) by (apply Z.div_pos; lia).
  destruct mc; one_line_parts.
Qed.

Lemma header_one_line {W} (ERROR : Z) (tag : bytes) (l : Logger W)
      (level : Z) (now : Time) :
  avoids "010" tag -> civil_ok (shown l now) ->
  avoids "010" (header_end (Color l) (header_text ERROR tag l level now)).
Proof.
  intros Htag Hok.
  pose proof (date_text_one_line _ Hok) as Hd.
  pose proof (time_text_one_line (HeadMC l) _ Hok) as Ht.
  assert (Hw : avoids "010" (header_text ERROR tag l level now)).
  { unfold header_text, head_colour, avoids in *.
    destruct (HeadLevel l), (Color l), (level =? ERROR), (HeadDate l),
      (HeadTime l); one_line_parts. }
  unfold header_end. destruct (header_text _ _ _ _ _) as [|c w]; [constructor|].
  apply Forall_app_2; [|destruct (Color l); no_escape_lit].
  rewrite removelast_firstn_len. by apply Forall_take.
Qed.

Lemma line_one_line {W} (ERROR : Z) (tag : bytes) (l : Logger W)
      (level : Z) (msg : bytes) (now : Time) :
  avoids "010" tag -> civil_ok (shown l now) -> avoids "010" msg ->
  exists body,
    line_text ERROR tag l level msg now = body ++ newline /\
    avoids "010" body.
Proof.
  intros Htag Hok Hmsg.
  pose proof (header_one_line ERROR tag l level now Htag Hok) as Hh.
  unfold line_text. set (hdr := header_end _ _) in *.
  destruct (Color l && (level =? ERROR)).
  - exists ((if Head l then hdr else [])
              ++ acolor.Apply [acolor.Red] ++ msg ++ acolor.Clear).
    split; [by rewrite <- !app_assoc|].
    unfold avoids in *. destruct (Head l); one_line_parts.
  - exists ((if Head l then hdr else []) ++ msg).
    split; [by rewrite <- !app_assoc|].
    unfold avoids in *. destruct (Head l); one_line_parts.
Qed.

Lemma Log_tag_one_line {W} (l : Logger W) (lv : Z) :
  avoids "010" (Log.getHeaderLevel l lv).
Proof.
  unfold Log.getHeaderLevel, avoids.
  destruct (Color l); eqb_cases; no_escape_lit.
Qed.

Lemma Part000_tag_one_line {W} (l : Logger W) (lv : Z) :
  avoids "010" (Part000.getHeaderLevel l lv).
Proof.
  unfold Part000.getHeaderLevel, avoids.
  destruct (Color l); eqb_cases; no_escape_lit.
Qed.

(** X9. A call of [write] (or [writef]) with a message that has no newline
    in it hands the sink exactly one line: a block without a newline,
    followed by one newline, in every configuration of the logger. *)
Theorem one_line_per_write {W : Type} `{Writer W} `{Fmt} (l : Logger W)
        (lv : Z) (format : bytes) (v : list value) (now : Time) :
  time_ok now ->
  (avoids "010" (Sprint v) ->
   (exists l' body err,
       Log.write l lv v now
       = Ok (l', [EvFormat; EvWrite (body ++ newline)], err) /\
       avoids "010" body) /\
   (exists l' body err,
       Part000.write l lv v now
       = Ok (l', [EvFormat; EvWrite (body ++ newline)], err) /\
       avoids "010" body)) /\
  (avoids "010" (Sprintf format v) ->
   exists l' body err,
     Part000.writef l lv format v now
     = Ok (l', [EvFormat; EvWrite (body ++ newline)], err) /\
     avoids "010" body).
Proof.
  intros Hok. apply (time_ok_shown l) in Hok. split; [intros Hmsg; split|intros Hmsg].
  - destruct (line_one_line Log.ERROR (Log.getHeaderLevel l lv) l lv (Sprint v)
                now (Log_tag_one_line l lv) Hok Hmsg) as (body & Hline & Hb).
    unfold Log.write. rewrite write_text by done. cbv zeta. rewrite Hline.
    by do 3 eexists.
  - destruct (line_one_line Part000.LevelError (Part000.getHeaderLevel l lv) l
                lv (Sprint v) now (Part000_tag_one_line l lv) Hok Hmsg)
      as (body & Hline & Hb).
    unfold Part000.write. rewrite write_text by done. cbv zeta. rewrite Hline.
    by do 3 eexists.
  - destruct (line_one_line Part000.LevelError (Part000.getHeaderLevel l lv) l
                lv (Sprintf format v) now (Part000_tag_one_line l lv) Hok Hmsg)
      as (body & Hline & Hb).
    rewrite writef_text by done. cbv zeta. rewrite Hline.
    by do 3 eexists.
Qed.

Lemma one_line_per_write_witness :
  exists l' body err,
    Log.write (New stderr Log.DEBUG) Log.INFO [VString (lit "ready")] instant
    = Ok (l', [EvFormat; EvWrite (body ++ newline)], err) /\
    avoids "010" body.
Proof.
  assert (Hok : time_ok instant) by (unfold time_ok, civil_ok; simpl; lia).
  destruct (one_line_per_write (New stderr Log.DEBUG) Log.INFO []
              [VString (lit "ready")] instant Hok) as (Hs & _).
  apply Hs. unfold avoids. simpl. no_escape_lit.
Defined.

(** ** The line of an unconfigured logger *)

Lemma New_line_text {W} (ERROR : Z) (tag : bytes) (o : W) (thr lv : Z)
      (msg : bytes) (now : Time) :
  line_text ERROR tag (New o thr) lv msg now
  = (tag ++ head_colour ERROR lv ++ calendar_text (zulu now) ++ lit " "
       ++ clock_text false (zulu now) ++ lit ": " ++ acolor.Clear)
      ++ (if lv =? ERROR
          then acolor.Apply [acolor.Red] ++ msg ++ acolor.Clear ++ newline
          else msg ++ newline).
Proof.
  unfold line_text, header_text, shown, date_text, time_text.
  cbn [New Head HeadLevel HeadDate HeadTime HeadMC Color UTC andb].
  f_equal.
  replace (tag ++ head_colour ERROR lv
             ++ (calendar_text (zulu now) ++ lit " ")
             ++ clock_text false (zulu now) ++ lit " ")
    with ((tag ++ head_colour ERROR lv ++ calendar_text (zulu now) ++ lit " "
             ++ clock_text false (zulu now)) ++ lit " ")
    by (by rewrite <- !app_assoc).
  rewrite header_end_space. by rewrite <- !app_assoc.
Qed.

Lemma New_tag {W} (o : W) (thr : Z) (s : Severity) :
  Log.getHeaderLevel (New o thr) (Log.code s)
  = acolor.Apply [acolor.Bold; tag_colour s] ++ tag_text s ++ acolor.Clear /\
  Part000.getHeaderLevel (New o thr) (Part000.code s)
  = acolor.Apply [acolor.Bold; tag_colour s] ++ tag_text s ++ acolor.Clear.
Proof. by destruct s. Qed.

Lemma code_is_ERROR (s : Severity) :
  (Log.code s =? Log.ERROR) = same_severity s SevError /\
  (Part000.code s =? Part000.LevelError) = same_severity s SevError /\
  head_colour Part000.LevelError (Part000.code s)
  = acolor.Apply [text_colour s].
Proof. by destruct s. Qed.

(** X10. A logger as [New] makes it writes, for a message at a valid level,
    the bold coloured tag, the date and the time of the instant in UTC in
    grey (red for an error) closed by a colon, a space and the reset, the
    message (between red and the reset for an error) and a newline; it
    returns the error of the sink. The same holds in both files. *)
Theorem New_logger_line {W : Type} `{Writer W} `{Fmt} (o : W) (thr : Z)
        (s : Severity) (v : list value) (now : Time) :
  civil_ok (zulu now) ->
  let line := default_line s now (Sprint v) in
  Log.write (New o thr) (Log.code s) v now
  = Ok (set_buf (New (fst (Write o line)) thr) line,
        [EvFormat; EvWrite line], snd (snd (Write o line))) /\
  Part000.write (New o thr) (Part000.code s) v now
  = Ok (set_buf (New (fst (Write o line)) thr) line,
        [EvFormat; EvWrite line], snd (snd (Write o line))).
Proof.
  intros Hok line.
  assert (Hlog : line_text Log.ERROR
                   (Log.getHeaderLevel (New o thr) (Log.code s))
                   (New o thr) (Log.code s) (Sprint v) now = line).
  { rewrite New_line_text, Log_head_colour.
    destruct (New_tag o thr s) as [-> _].
    destruct (code_is_ERROR s) as (-> & _).
    unfold line, default_line.
    destruct (same_severity s SevError); by rewrite <- !app_assoc. }
  assert (Hpart : line_text Part000.LevelError
                    (Part000.getHeaderLevel (New o thr) (Part000.code s))
                    (New o thr) (Part000.code s) (Sprint v) now = line).
  { rewrite New_line_text.
    destruct (New_tag o thr s) as [_ ->].
    destruct (code_is_ERROR s) as (_ & -> & ->).
    unfold line, default_line.
    destruct (same_severity s SevError); by rewrite <- !app_assoc. }
  split.
  - unfold Log.write. rewrite write_text by done. cbv zeta. by rewrite Hlog.
  - unfold Part000.write. rewrite write_text by done. cbv zeta.
    by rewrite Hpart.
Qed.

Lemma New_logger_line_witness :
  exists l' err,
    Log.write (New stderr Log.DEBUG) (Log.code SevWarn)
              [VString (lit "low disk")] instant
    = Ok (l', [EvFormat;
               EvWrite (default_line SevWarn instant
                          (Sprint [VString (lit "low disk")]))], err).
Proof.
  assert (Hok : civil_ok (zulu instant)) by (unfold civil_ok; simpl; lia).
  destruct (New_logger_line stderr Log.DEBUG SevWarn
              [VString (lit "low disk")] instant Hok) as [Hlog _].
  do 2 eexists. exact Hlog.
Defined.

(** ** What a write depends on *)

Lemma write_forgets_buf {W} `{Writer W} `{Fmt} (l : Logger W) (b : bytes)
      (lv : Z) (v : list value) (now : Time) :
  Log.write (set_buf l b) lv v now = Log.write l lv v now /\
  Part000.write (set_buf l b) lv v now = Part000.write l lv v now.
Proof. by destruct l. Qed.

Lemma write_result {W} `{Writer W} `{Fmt} (ERROR : Z)
      (tag : Logger W -> Z -> bytes) (l l' : Logger W) (lv : Z)
      (v : list value) (now : Time) (evs : list event) (err : error) :
  write ERROR tag l lv v now = Ok (l', evs, err) ->
  l' = set_buf (set_out l (out l')) (buf l').
Proof.
  unfold write. destruct (if Head l then _ else _) as [hdr|]; [|done].
  cbn [bind]. destruct (Write (out l) _) as [w [n e]].
  by intros [= <- _ _].
Qed.

(** X11. What a call of [write] leaves in the logger's buffer never reaches
    a later line: the buffer is emptied first, so a second [write] behaves
    as it would on the first logger with only the sink moved on. The call
    changes nothing but the buffer and the sink. *)
Theorem write_starts_afresh {W : Type} `{Writer W} `{Fmt}
        (l l1 : Logger W) (lv lv' : Z) (v v' : list value)
        (now now' : Time) (evs : list event) (err : error) :
  (Log.write l lv v now = Ok (l1, evs, err) ->
   l1 = set_buf (set_out l (out l1)) (buf l1) /\
   Log.write l1 lv' v' now' = Log.write (set_out l (out l1)) lv' v' now') /\
  (Part000.write l lv v now = Ok (l1, evs, err) ->
   l1 = set_buf (set_out l (out l1)) (buf l1) /\
   Part000.write l1 lv' v' now'
   = Part000.write (set_out l (out l1)) lv' v' now').
Proof.
  split; intros Hrun; apply write_result in Hrun;
    (split; [exact Hrun|]); rewrite Hrun at 1; apply write_forgets_buf.
Qed.

Lemma write_starts_afresh_witness :
  exists l1 evs err,
    Log.write (New stderr Log.DEBUG) Log.INFO [VString (lit "one")] instant
    = Ok (l1, evs, err) /\
    Log.write l1 Log.WARN [VString (lit "two")] instant
    = Log.write (set_out (New stderr Log.DEBUG) (out l1)) Log.WARN
                [VString (lit "two")] instant.
Proof.
  destruct (Log.write (New stderr Log.DEBUG) Log.INFO [VString (lit "one")]
                      instant) as [[[l1 evs] err]|] eqn:Hrun.
  - exists l1, evs, err. split; [reflexivity|].
    destruct (write_starts_afresh (New stderr Log.DEBUG) l1 Log.INFO Log.WARN
                [VString (lit "one")] [VString (lit "two")] instant instant
                evs err) as (Hlog & _).
    by apply Hlog.
  - vm_compute in Hrun. discriminate Hrun.
Defined.

Lemma headerParts_shown {W} (ERROR : Z) (tag : Logger W -> Z -> bytes)
      (l : Logger W) (b : bytes) (lv : Z) (now now' : Time) :
  shown l now = shown l now' ->
  headerParts ERROR tag l b lv now = headerParts ERROR tag l b lv now'.
Proof.
  intros Heq. unfold headerParts, Date, Clock, Nanosecond.
  replace (wall (if UTC l then Time_UTC now else now)) with (shown l now)
    by (unfold shown; by destruct (UTC l)).
  replace (wall (if UTC l then Time_UTC now' else now')) with (shown l now')
    by (unfold shown; by destruct (UTC l)).
  by rewrite Heq.
Qed.

Lemma headerParts_no_clock {W} (ERROR : Z) (tag : Logger W -> Z -> bytes)
      (l : Logger W) (b : bytes) (lv : Z) (now now' : Time) :
  HeadDate l = false -> HeadTime l = false ->
  headerParts ERROR tag l b lv now = headerParts ERROR tag l b lv now'.
Proof. intros Hd Ht. unfold headerParts. by rewrite Hd, Ht. Qed.

(** X12. The clock matters to [write] only through what the header shows:
    two readings give the same result when the header is off, when neither
    date nor time is shown, or when the calendar fields in the logger's
    zone agree: in UTC mode the local fields are never looked at, and in
    local mode the UTC fields are not. *)
Theorem write_reads_shown_clock {W : Type} `{Writer W} `{Fmt}
        (l : Logger W) (lv : Z) (v : list value) (now now' : Time) :
  Head l = false \/ (HeadDate l = false /\ HeadTime l = false) \/
  (UTC l = true /\ zulu now = zulu now') \/
  (UTC l = false /\ wall now = wall now') ->
  Log.write l lv v now = Log.write l lv v now' /\
  Part000.write l lv v now = Part000.write l lv v now'.
Proof.
  intros Hcase.
  assert (Hparts : forall E (tag : Logger W -> Z -> bytes),
             Head l = true ->
             headerParts E tag l (take 0 (buf l)) lv now
             = headerParts E tag l (take 0 (buf l)) lv now').
  { intros E tag Hh.
    destruct Hcase as [Hf|[[Hd Ht]|[[Hu Hz]|[Hu Hw]]]].
    - congruence.
    - by apply headerParts_no_clock.
    - apply headerParts_shown. unfold shown. by rewrite Hu.
    - apply headerParts_shown. unfold shown. by rewrite Hu. }
  unfold Log.write, Part000.write, write, writeHeader.
  destruct (Head l); [|done]. by rewrite !Hparts.
Qed.

Lemma write_reads_shown_clock_witness :
  Log.write (New stderr Log.DEBUG) Log.INFO [VString (lit "ready")] instant
  = Log.write (New stderr Log.DEBUG) Log.INFO [VString (lit "ready")]
              {| wall := {| year := 1999; month := 12; day := 31; hour := 23;
                            minute := 59; second := 59; nanosecond := 0 |};
                 zulu := march5 |}.
Proof.
  apply (write_reads_shown_clock (New stderr Log.DEBUG)).
  right. right. left. split; reflexivity.
Defined.

(** X13. HeadMC does something only with HeadTime, and UTC only with
    HeadDate or HeadTime: otherwise setting them either way leaves the
    header as it is. *)
Theorem idle_switches {W : Type} (l : Logger W) (b : bool) (buf : bytes)
        (lv : Z) (now : Time) :
  (HeadTime l = false ->
   Log.writeHeader (set_flag l FHeadMC b) buf lv now
   = Log.writeHeader l buf lv now /\
   Part000.writeHeader (set_flag l FHeadMC b) buf lv now
   = Part000.writeHeader l buf lv now) /\
  (HeadDate l = false -> HeadTime l = false ->
   Log.writeHeader (set_flag l FUTC b) buf lv now
   = Log.writeHeader l buf lv now /\
   Part000.writeHeader (set_flag l FUTC b) buf lv now
   = Part000.writeHeader l buf lv now).
Proof.
  unfold Log.writeHeader, Part000.writeHeader, writeHeader, headerParts,
    Log.getHeaderLevel, Part000.getHeaderLevel.
  split; [intros Ht|intros Hd Ht]; cbn [set_flag HeadLevel Color HeadDate
    HeadTime HeadMC UTC]; rewrite ?Hd, ?Ht; by destruct (HeadDate l).
Qed.

Lemma idle_switches_witness :
  Log.writeHeader (set_flag (set_flag (New stderr 0) FHeadTime false) FHeadMC true)
                  [] Log.INFO instant
  = Log.writeHeader (set_flag (New stderr 0) FHeadTime false) [] Log.INFO instant.
Proof.
  destruct (idle_switches (set_flag (New stderr 0) FHeadTime false) true []
              Log.INFO instant) as (Hmc & _).
  apply Hmc. reflexivity.
Defined.

(** ** The width of the header *)

Lemma zpad_width (w n : Z) :
  1 <= w -> 0 <= n < 10 ^ w -> length (zpad w n) = Z.to_nat w.
Proof.
  intros Hw Hn. rewrite zpad_length.
  replace w with (Z.of_nat (S (Z.to_nat w - 1))) in Hn by lia.
  pose proof (dec_digits_length_bound _ n Hn). lia.
Qed.

Lemma date_text_width (c : Civil) :
  civil_ok c -> year c <= 9999 -> length (date_text c) = 11%nat.
Proof.
  intros (Hy & Hmo & Hd & _) H4. unfold date_text, calendar_text.
  rewrite !length_app, !zpad_width by (simpl; lia).
  reflexivity.
Qed.

Lemma time_text_width (mc : bool) (c : Civil) :
  civil_ok c -> length (time_text mc c) = if mc then 16%nat else 9%nat.
Proof.
  intros (_ & _ & _ & Hh & Hmi & Hs & Hn). unfold time_text, clock_text.
  assert (0 <= nanosecond c / 1000 < 10 ^ 6).
  { split; [apply Z.div_pos; lia|]. apply Z.div_lt_upper_bound; simpl; lia. }
  rewrite !length_app, !zpad_width by (simpl; lia).
  destruct mc; [|reflexivity].
  rewrite length_app, zpad_width by (done || lia).
  reflexivity.
Qed.

Lemma header_end_length (w : bytes) :
  length (header_end false w)
  = match length w with O => O | S n => S (S n) end.
Proof.
  unfold header_end. destruct w as [|c w]; [done|].
  rewrite length_app, removelast_firstn_len, length_take. simpl. lia.
Qed.

(** X14. With colour off and a year of at most four digits the header has
    a width that depends on the switches alone, not on the level or the
    instant: 8 for the tag, 11 for the date, 9 for the time (16 with
    microseconds), and one more for the colon; nothing when all are off. *)
Theorem plain_header_has_fixed_width {W : Type} (l : Logger W) (lv : Z)
        (now : Time) :
  Color l = false -> time_ok now -> year (shown l now) <= 9999 ->
  (exists header,
      Log.writeHeader l [] lv now = Ok header /\
      length header = plain_header_width l) /\
  (exists header,
      Part000.writeHeader l [] lv now = Ok header /\
      length header = plain_header_width l).
Proof.
  intros Hc Hok Hy. apply (time_ok_shown l) in Hok.
  pose proof (date_text_width _ Hok Hy) as Hd.
  pose proof (time_text_width (HeadMC l) _ Hok) as Ht.
  assert (Hlog : length (Log.getHeaderLevel l lv) = 8%nat).
  { unfold Log.getHeaderLevel. rewrite Hc. by eqb_cases. }
  assert (Hpart : length (Part000.getHeaderLevel l lv) = 8%nat).
  { unfold Part000.getHeaderLevel. rewrite Hc. by eqb_cases. }
  unfold Log.writeHeader, Part000.writeHeader.
  rewrite !writeHeader_text by done.
  split; (eexists; split; [reflexivity|]);
    unfold header_text, plain_header_width; rewrite Hc;
    rewrite header_end_length, !length_app;
    destruct (HeadLevel l), (HeadDate l), (HeadTime l), (HeadMC l);
    rewrite ?Hlog, ?Hpart, ?Hd, ?Ht; reflexivity.
Qed.

Lemma plain_header_has_fixed_width_witness :
  exists header,
    Log.writeHeader (set_flag (New stderr 0) FColor false) [] Log.WARN instant
    = Ok header /\
    length header = plain_header_width (set_flag (New stderr 0) FColor false).
Proof.
  apply (plain_header_has_fixed_width (set_flag (New stderr 0) FColor false)
           Log.WARN instant);
    [reflexivity | unfold time_ok, civil_ok; simpl; lia | simpl; lia].
Defined.

(** ** The default loggers *)

(** X15. The default logger of [src/log.go] has the threshold DEBUG: it
    lets every level through except TRACE, and a call of Trace on it does
    nothing. The default logger of [part_000] lets every level through. *)
Theorem default_loggers {W : Type} `{Writer W} `{Fmt} (Stderr : W)
        (s : Severity) (v : list value) (now : Time) :
  Log.IsLevel (Log.std Stderr) (Log.code s) = negb (same_severity s SevTrace) /\
  Log.Trace (Log.std Stderr) v now = Ok (Log.std Stderr, [], Returned) /\
  Part000.IsLevel (Part000.std Stderr) (Part000.code s) = true.
Proof. by destruct s. Qed.

(** ** Colour off in [part_000] *)

(** X16. With colour off, [write] and [writef] of [part_000] put no escape
    byte into a line whose message has none, in every configuration and at
    every level value. *)
Theorem Part000_line_plain {W : Type} `{Writer W} `{Fmt} (l : Logger W)
        (lv : Z) (format : bytes) (v : list value) (now : Time) :
  time_ok now -> Color l = false ->
  (no_escape (Sprint v) ->
   exists l' line err,
     Part000.write l lv v now = Ok (l', [EvFormat; EvWrite line], err) /\
     no_escape line) /\
  (no_escape (Sprintf format v) ->
   exists l' line err,
     Part000.writef l lv format v now
     = Ok (l', [EvFormat; EvWrite line], err) /\
     no_escape line).
Proof.
  intros Hok Hc. apply (time_ok_shown l) in Hok.
  assert (Hline : forall msg, no_escape msg ->
            no_escape (line_text Part000.LevelError
                         (Part000.getHeaderLevel l lv) l lv msg now)).
  { intros msg Hmsg. unfold line_text. rewrite Hc. cbn [andb].
    apply Forall_app_2; [|apply Forall_app_2; [done|no_escape_lit]].
    destruct (Head l); [|constructor].
    apply no_escape_header_end, header_text_plain; try done.
    by apply Part000_tag_plain. }
  split; intros Hmsg.
  - unfold Part000.write. rewrite write_text by done.
    do 3 eexists. split; [reflexivity|by apply Hline].
  - rewrite writef_text by done.
    do 3 eexists. split; [reflexivity|by apply Hline].
Qed.

Lemma Part000_line_plain_witness :
  exists l' line err,
    Part000.writef (set_flag (New stderr 4) FColor false) Part000.LevelInfo
                   (lit "%s ready") [VString (lit "db")] instant
    = Ok (l', [EvFormat; EvWrite line], err) /\
    no_escape line.
Proof.
  assert (Hok : time_ok instant) by (unfold time_ok, civil_ok; simpl; lia).
  destruct (Part000_line_plain (set_flag (New stderr 4) FColor false)
              Part000.LevelInfo (lit "%s ready") [VString (lit "db")]
              instant Hok eq_refl) as (_ & Hf).
  apply Hf. unfold no_escape. simpl. no_escape_lit.
Defined.
